(** * Verification of package [verify] (pkg/verify/verify.go)

    The package checks an installation (a list of Kubernetes components read
    from a descriptor file) through the command runner of package [kubectl].
    The verifier is embedded as state-passing code over an abstract cluster:
    every call into package [kubectl] is answered by an oracle on the cluster
    state and is recorded in a call log, so that statements such as "no query
    is made" or "no pod is deleted" can be read off the log.  A dereference of
    a nil installation pointer is a panic. *)

From Stdlib Require Import String Ascii NArith List Bool.
From stdpp Require Import base option list strings gmap.

Local Open Scope string_scope.
Local Open Scope list_scope.

(** ** Go strings

    A Go string is a sequence of bytes; [string] of [Ascii.ascii] is the same
    thing.  [len(s)] is [String.length s]. *)

Definition bytes (s : string) : list N := map N_of_ascii (list_ascii_of_string s).
Definition of_bytes (l : list N) : string := string_of_list_ascii (map ascii_of_N l).

(** The six ASCII bytes for which Go's [unicode.IsSpace] holds:
    tab, line feed, vertical tab, form feed, carriage return, space. *)
Definition asciiSpace (c : N) : bool :=
  ((9 <=? c) && (c <=? 13) || (c =? 32))%N.

(** Width in bytes of the rune at the front of [s] when that rune is white
    space for [unicode.IsSpace], and [0] otherwise.  Beyond ASCII the white
    space runes are U+0085, U+00A0, U+1680, U+2000..U+200A, U+2028, U+2029,
    U+202F, U+205F and U+3000, in their UTF-8 encodings. *)
Definition leadingSpace (s : list N) : nat :=
  match s with
  | [] => 0
  | c :: r =>
    if asciiSpace c then 1 else
    match c, r with
    | 194%N, d :: _ => if ((d =? 133) || (d =? 160))%N then 2 else 0
    | 225%N, d :: e :: _ => if ((d =? 154) && (e =? 128))%N then 3 else 0
    | 226%N, d :: e :: _ =>
      if ((d =? 128) && ((128 <=? e) && (e <=? 138) || (e =? 168) || (e =? 169) || (e =? 175))
          || (d =? 129) && (e =? 159))%N then 3 else 0
    | 227%N, d :: e :: _ => if ((d =? 128) && (e =? 128))%N then 3 else 0
    | _, _ => 0
    end
  end.

(** The same for the rune at the end of the string, on the reversed bytes. *)
Definition trailingSpace (r : list N) : nat :=
  match r with
  | [] => 0
  | c :: _ =>
    if asciiSpace c then 1 else
    match r with
    | d :: 194%N :: _ => if ((d =? 133) || (d =? 160))%N then 2 else 0
    | e :: d :: 225%N :: _ => if ((d =? 154) && (e =? 128))%N then 3 else 0
    | e :: d :: 226%N :: _ =>
      if ((d =? 128) && ((128 <=? e) && (e <=? 138) || (e =? 168) || (e =? 169) || (e =? 175))
          || (d =? 129) && (e =? 159))%N then 3 else 0
    | e :: d :: 227%N :: _ => if ((d =? 128) && (e =? 128))%N then 3 else 0
    | _ => 0
    end
  end.

Fixpoint trimWith (width : list N -> nat) (fuel : nat) (s : list N) : list N :=
  match fuel with
  | O => s
  | S fuel' =>
    match width s with
    | O => s
    | w => trimWith width fuel' (drop w s)
    end
  end.

Definition TrimLeftSpace (s : list N) : list N := trimWith leadingSpace (length s) s.
Definition TrimRightSpace (s : list N) : list N :=
  rev (trimWith trailingSpace (length s) (rev s)).

(** [strings.TrimSpace]: all leading and trailing white space removed. *)
Definition TrimSpace (s : string) : string :=
  of_bytes (TrimRightSpace (TrimLeftSpace (bytes s))).

(** The test [len(strings.TrimSpace(s)) == 0] of the source. *)
Definition blank (s : string) : bool := (String.length (TrimSpace s) =? 0)%nat.

(** ** Errors

    A Go [error] is nil or carries a message. *)
Definition error := option string.
Definition Errorf (msg : string) : error := Some msg.
Definition isNil (e : error) : bool := match e with None => true | Some _ => false end.

(** ** The cluster, the call log and the monad of the embedding *)

Inductive Call : Type :=
| CReadFile (file : string)
| CRun (args : list string) (namespace context : string)
| CIsResourceDeployed (kind name namespace labels : string)
| CArePodsRunning (namespace labels : string)
| CGetRunningPods (namespace labels : string)
| CGetOldestRunningPod (namespace labels : string)
| CGetPodNodes (namespace labels : string)
| CDeletePod (name namespace : string).

Record State (W : Type) : Type := mkState { world : W; calls : list Call }.
Arguments mkState {W} _ _.
Arguments world {W} _.
Arguments calls {W} _.

Inductive outcome (A : Type) : Type :=
| Returns (a : A)
| Panics.
Arguments Returns {A} _.
Arguments Panics {A}.

Definition M (W A : Type) : Type := State W -> outcome A * State W.

Definition ret {W A} (a : A) : M W A := fun s => (Returns a, s).
Definition panic {W A} : M W A := fun s => (Panics, s).
Definition bind {W A B} (m : M W A) (k : A -> M W B) : M W B :=
  fun s => match m s with
           | (Returns a, s') => k a s'
           | (Panics, s') => (Panics, s')
           end.
(** A call of an external function: the oracle answers from the cluster
    state, and the call is appended to the log. *)
Definition invoke {W A} (c : Call) (f : W -> A * W) : M W A :=
  fun s => let '(a, w') := f (world s) in
           (Returns a, mkState w' (calls s ++ [c])).

Notation "x <~ m ;; k" := (bind m (fun x => k))
  (at level 100, m at next level, right associativity).

(** ** Package kubectl (the collaborator)

    The source imports package [kubectl]; its functions are parameters of the
    development.  Each takes the runner and answers from the cluster state. *)
Module kubectl.

Record Pkg (W KubeRunner : Type) : Type := {
  isPod : string -> bool;
  run : KubeRunner -> list string -> string -> string -> W -> (string * error) * W;
  isResourceDeployed :
    KubeRunner -> string -> string -> string -> string -> W -> (bool * error) * W;
  arePodsRunning : KubeRunner -> string -> string -> W -> (bool * error) * W;
  getRunningPods : KubeRunner -> string -> string -> W -> (list string * error) * W;
  getOldestRunningPod : KubeRunner -> string -> string -> W -> (string * error) * W;
  getPodNodes : KubeRunner -> string -> string -> W -> (list string * error) * W;
  deletePod : KubeRunner -> string -> string -> W -> error * W
}.
Arguments isPod {W KubeRunner} _ _.
Arguments run {W KubeRunner} _ _ _ _ _ _.
Arguments isResourceDeployed {W KubeRunner} _ _ _ _ _ _ _.
Arguments arePodsRunning {W KubeRunner} _ _ _ _ _.
Arguments getRunningPods {W KubeRunner} _ _ _ _ _.
Arguments getOldestRunningPod {W KubeRunner} _ _ _ _ _.
Arguments getPodNodes {W KubeRunner} _ _ _ _ _.
Arguments deletePod {W KubeRunner} _ _ _ _ _.

Section Calls.
Context {W KubeRunner : Type} (K : Pkg W KubeRunner).

Definition IsPod (kind : string) : bool := isPod K kind.

Definition Run (k : KubeRunner) (args : list string) (namespace context : string)
  : M W (string * error) :=
  invoke (CRun args namespace context) (run K k args namespace context).

Definition IsResourceDeployed (k : KubeRunner) (kind name namespace labels : string)
  : M W (bool * error) :=
  invoke (CIsResourceDeployed kind name namespace labels)
         (isResourceDeployed K k kind name namespace labels).

Definition ArePodsRunning (k : KubeRunner) (namespace labels : string)
  : M W (bool * error) :=
  invoke (CArePodsRunning namespace labels) (arePodsRunning K k namespace labels).

Definition GetRunningPods (k : KubeRunner) (namespace labels : string)
  : M W (list string * error) :=
  invoke (CGetRunningPods namespace labels) (getRunningPods K k namespace labels).

Definition GetOldestRunningPod (k : KubeRunner) (namespace labels : string)
  : M W (string * error) :=
  invoke (CGetOldestRunningPod namespace labels)
         (getOldestRunningPod K k namespace labels).

Definition GetPodNodes (k : KubeRunner) (namespace labels : string)
  : M W (list string * error) :=
  invoke (CGetPodNodes namespace labels) (getPodNodes K k namespace labels).

Definition DeletePod (k : KubeRunner) (name namespace : string) : M W error :=
  invoke (CDeletePod name namespace) (deletePod K k name namespace).
End Calls.

End kubectl.

(** ** Package verify: the data model *)

Definition VerifyFile := string.
Definition Condition := string.
Definition Action := string.

Definition UniqueNodeCond : Condition := "unique-node".
Definition DeleteAnyPodAction : Action := "delete-any-pod".
Definition DeleteOldestPodAction : Action := "delete-oldest-pod".

Record Component : Type := mkComponent {
  Name : string;
  Namespace : string;
  Kind : string;
  APIVersion : string;
  Labels : string;
  Alias : string
}.

Record Installation : Type := mkInstallation {
  VerifyID : string;
  Version : string;
  Components : list Component
}.

(** Zero values of the two structs. *)
Definition zeroComponent : Component := mkComponent "" "" "" "" "" "".
Definition zeroInstallation : Installation := mkInstallation "" "" [].

(** [installation] is a pointer in the source: [None] is nil. *)
Record KubeInstallVerify (KubeRunner : Type) : Type := mkKubeInstallVerify {
  installation : option Installation;
  kubectl : KubeRunner
}.
Arguments mkKubeInstallVerify {KubeRunner} _ _.
Arguments installation {KubeRunner} _.
Arguments kubectl {KubeRunner} _.

Record KubeConnectionVerify (KubeRunner : Type) : Type := mkKubeConnectionVerify {
  conn_kubectl : KubeRunner
}.
Arguments mkKubeConnectionVerify {KubeRunner} _.
Arguments conn_kubectl {KubeRunner} _.

(** ** Package verify: the errors built with [fmt.Errorf] *)

Definition noVerifyFile : error :=
  Errorf "failed to load: verify file is not provided".
Definition nilInstallation (check : string) : error :=
  Errorf ("failed to check " ++ check ++ ": installation object is nil").
Definition conditionNotSupported (condition : Condition) : error :=
  Errorf ("condition '" ++ condition ++ "' is not supported").
Definition actionNotSupported (action : Action) : error :=
  Errorf ("action '" ++ action ++ "' is not supported").
(** The format has three verbs and two operands: the third prints as
    [%!s(MISSING)]. *)
Definition labelsMissing (kind alias : string) : error :=
  Errorf ("unable to fetch component '" ++ kind ++ "' '" ++ alias
          ++ "': component labels are missing '%!s(MISSING)'").
Definition runningPodsNotFound (alias : string) : error :=
  Errorf ("failed to delete any running pod: pods with alias '" ++ alias
          ++ "' and running state are not found").
Definition oldestPodNotFound (alias : string) : error :=
  Errorf ("failed to delete oldest running pod: pod with alias '" ++ alias
          ++ "' and running state is not found").
Definition notFound (alias : string) : error :=
  Errorf ("component not found for alias '" ++ alias ++ "'").
Definition notUnique (alias : string) : error :=
  Errorf ("multiple components found for alias '" ++ alias
          ++ "': alias should be unique in an install").
Definition kindRequired : error :=
  Errorf "unable to verify component running status: component kind is required".
Definition labelsRequired (kind : string) : error :=
  Errorf ("unable to verify component '" ++ kind
          ++ "' running status: component labels are required").
Definition nodeLabelsRequired (kind : string) : error :=
  Errorf ("unable to fetch component '" ++ kind
          ++ "' node: component labels are required").

(** ** Package verify: the functions *)

Section Verify.
Context {W KubeRunner : Type}.
(** [ioutil.ReadFile] and [yaml.Unmarshal] are library functions: parameters. *)
Variable ReadFile : string -> W -> (string * error) * W.
Variable yaml_Unmarshal : string -> Installation -> Installation * error.
Variable K : kubectl.Pkg W KubeRunner.



(** [unmarshal]: the pointer returned is never nil. *)
Definition unmarshal (data : string) : option Installation * error :=
  let '(i, err) := yaml_Unmarshal data zeroInstallation in
  (Some i, err).

Definition load (file : VerifyFile) : M W (option Installation * error) :=
  if (String.length file =? 0)%nat then
    ret (None, noVerifyFile)
  else
    r <~ invoke (CReadFile file) (ReadFile file) ;;
    let '(d, err) := r in
    if isNil err then ret (unmarshal d) else ret (None, err).

Definition NewKubeInstallVerify (runner : KubeRunner) (file : VerifyFile)
  : M W (option (KubeInstallVerify KubeRunner) * error) :=
  r <~ load file ;;
  let '(i, err) := r in
  if isNil err then ret (Some (mkKubeInstallVerify i runner), None)
  else ret (None, err).

Definition isComponentDeployed (v : KubeInstallVerify KubeRunner) (component : Component)
  : M W (bool * error) :=
  kubectl.IsResourceDeployed K (kubectl v)
    (Kind component) (Name component) (Namespace component) (Labels component).

Definition isPodComponentRunning (v : KubeInstallVerify KubeRunner) (component : Component)
  : M W (bool * error) :=
  let err : error := if blank (Kind component) then kindRequired else None in
  if negb (kubectl.IsPod K (Kind component)) then ret (true, err)
  else if blank (Labels component) then
    ret (false, labelsRequired (Kind component))
  else kubectl.ArePodsRunning K (kubectl v) (Namespace component) (Labels component).

(** The loop shared in shape by [IsDeployed] and [IsRunning]:
    [yes, err = check(component)], left at the first non-nil [err]. *)
Fixpoint rangeComponents (check : Component -> M W (bool * error))
    (components : list Component) (yes : bool) (err : error) : M W (bool * error) :=
  match components with
  | [] => ret (yes, err)
  | component :: rest =>
    r <~ check component ;;
    let '(yes', err') := r in
    if isNil err' then rangeComponents check rest yes' err'
    else ret (yes', err')
  end.

Definition IsDeployed (v : KubeInstallVerify KubeRunner) : M W (bool * error) :=
  match installation v with
  | None => ret (false, nilInstallation "IsDeployed")
  | Some i => rangeComponents (isComponentDeployed v) (Components i) false None
  end.

Definition IsRunning (v : KubeInstallVerify KubeRunner) : M W (bool * error) :=
  match installation v with
  | None => ret (false, nilInstallation "IsRunning")
  | Some i => rangeComponents (isPodComponentRunning v) (Components i) false None
  end.

(** The filtering loops append the components that pass the test. *)
Definition appendIf (test : Component -> bool) (components : list Component)
  : list Component :=
  fold_left (fun filtered c => if test c then filtered ++ [c] else filtered) components [].

Definition getMatchingPodComponent (v : KubeInstallVerify KubeRunner) (alias : string)
  : M W (Component * error) :=
  match installation v with
  | None => panic
  | Some i =>
    let filtered :=
      appendIf (fun c => String.eqb (Alias c) alias && kubectl.IsPod K (Kind c))
               (Components i) in
    match filtered with
    | [] => ret (zeroComponent, notFound alias)
    | [c] => ret (c, None)
    | _ :: _ :: _ => ret (zeroComponent, notUnique alias)
    end
  end.

Definition isDeleteAnyRunningPod (v : KubeInstallVerify KubeRunner) (alias : string)
  : M W (bool * error) :=
  r <~ getMatchingPodComponent v alias ;;
  let '(c, err) := r in
  if negb (isNil err) then ret (false, err)
  else if blank (Labels c) then ret (false, labelsMissing (Kind c) alias)
  else
    r <~ kubectl.GetRunningPods K (kubectl v) (Namespace c) (Labels c) ;;
    let '(pods, err) := r in
    if negb (isNil err) then ret (false, err)
    else match pods with
         | [] =>
           ret (false, runningPodsNotFound alias)
         | pod0 :: _ =>
           err <~ kubectl.DeletePod K (kubectl v) pod0 (Namespace c) ;;
           if negb (isNil err) then ret (false, err) else ret (true, err)
         end.

Definition isDeleteOldestRunningPod (v : KubeInstallVerify KubeRunner) (alias : string)
  : M W (bool * error) :=
  r <~ getMatchingPodComponent v alias ;;
  let '(c, err) := r in
  if negb (isNil err) then ret (false, err)
  else if blank (Labels c) then ret (false, labelsMissing (Kind c) alias)
  else
    r <~ kubectl.GetOldestRunningPod K (kubectl v) (Namespace c) (Labels c) ;;
    let '(pod, err) := r in
    if negb (isNil err) then ret (false, err)
    else if (String.length pod =? 0)%nat then
      ret (false, oldestPodNotFound alias)
    else
      err <~ kubectl.DeletePod K (kubectl v) pod (Namespace c) ;;
      if negb (isNil err) then ret (false, err) else ret (true, err).

(** Second loop of [isEachComponentOnUniqueNode]: [inr] is an early return. *)
Fixpoint collectNodes (v : KubeInstallVerify KubeRunner) (filtered : list Component)
    (nodes : list string) : M W (list string + bool * error) :=
  match filtered with
  | [] => ret (inl nodes)
  | f :: rest =>
    if negb (kubectl.IsPod K (Kind f)) then collectNodes v rest nodes
    else if blank (Labels f) then
      ret (inr (false, nodeLabelsRequired (Kind f)))
    else
      r <~ kubectl.GetPodNodes K (kubectl v) (Namespace f) (Labels f) ;;
      let '(n, err) := r in
      if negb (isNil err) then ret (inr (false, err))
      else collectNodes v rest (nodes ++ n)
  end.

(** Third loop: the map [exists] records the node names seen so far. *)
Fixpoint noDuplicate (nodes : list string) (exists_ : gmap string string) : bool :=
  match nodes with
  | [] => true
  | n :: rest =>
    match exists_ !! n with
    | Some _ => false
    | None => noDuplicate rest (<[n := "tracked"]> exists_)
    end
  end.

Definition isEachComponentOnUniqueNode (v : KubeInstallVerify KubeRunner) (alias : string)
  : M W (bool * error) :=
  match installation v with
  | None => panic
  | Some i =>
    let filtered := appendIf (fun c => String.eqb (Alias c) alias) (Components i) in
    r <~ collectNodes v filtered [] ;;
    match r with
    | inr early => ret early
    | inl nodes => ret (noDuplicate nodes ∅, None)
    end
  end.

Definition IsCondition (v : KubeInstallVerify KubeRunner) (alias : string)
    (condition : Condition) : M W (bool * error) :=
  if String.eqb condition UniqueNodeCond then isEachComponentOnUniqueNode v alias
  else ret (false, conditionNotSupported condition).

Definition IsAction (v : KubeInstallVerify KubeRunner) (alias : string) (action : Action)
  : M W (bool * error) :=
  if String.eqb action DeleteAnyPodAction then isDeleteAnyRunningPod v alias
  else if String.eqb action DeleteOldestPodAction then isDeleteOldestRunningPod v alias
  else ret (false, actionNotSupported action).

Definition NewKubeConnectionVerify (runner : KubeRunner) : KubeConnectionVerify KubeRunner :=
  mkKubeConnectionVerify runner.

Definition IsConnected (k : KubeConnectionVerify KubeRunner) : M W (bool * error) :=
  r <~ kubectl.Run K (conn_kubectl k) ["get"; "pods"] "" "" ;;
  let '(_, err) := r in
  if isNil err then ret (true, err) else ret (false, err).

End Verify.

(** ** Notions used to state the properties

    These are not translations of the source: they say, independently of the
    loops above, what the cluster answers to a sequence of queries. *)

Section Observations.
Context {W KubeRunner : Type}.
Variable K : kubectl.Pkg W KubeRunner.
Variable k : KubeRunner.

(** The existence query made for a component, and its entry in the log. *)
Definition deployedAnswer (c : Component) (w : W) : (bool * error) * W :=
  kubectl.isResourceDeployed K k (Kind c) (Name c) (Namespace c) (Labels c) w.

Definition deployedCall (c : Component) : Call :=
  CIsResourceDeployed (Kind c) (Name c) (Namespace c) (Labels c).

(** The answers of the cluster when every component of the list is queried
    in turn, and the cluster state after the last query. *)
Fixpoint deployedAnswers (cs : list Component) (w : W) : list (bool * error) * W :=
  match cs with
  | [] => ([], w)
  | c :: rest =>
    let '(a, w1) := deployedAnswer c w in
    let '(more, w2) := deployedAnswers rest w1 in
    (a :: more, w2)
  end.

Definition noError (a : bool * error) : Prop := a.2 = None.

(** The component is pod-kind and carries the alias. *)
Definition podWithAlias (alias : string) (c : Component) : bool :=
  String.eqb (Alias c) alias && kubectl.isPod K (Kind c).

(** The pod-kind components of a list. *)
Definition pods (fs : list Component) : list Component :=
  List.filter (fun c => kubectl.isPod K (Kind c)) fs.

Definition nodesCall (c : Component) : Call := CGetPodNodes (Namespace c) (Labels c).

(** The node names reported for the components of the list, queried in turn
    and concatenated; [None] when a query fails. *)
Fixpoint reportedNodes (cs : list Component) (w : W) : option (list string * W) :=
  match cs with
  | [] => Some ([], w)
  | c :: rest =>
    match kubectl.getPodNodes K k (Namespace c) (Labels c) w with
    | (n, None, w1) =>
      match reportedNodes rest w1 with
      | Some (more, w2) => Some (n ++ more, w2)
      | None => None
      end
    | (_, Some _, _) => None
    end
  end.

Definition labelled (c : Component) : Prop := blank (Labels c) = false.

End Observations.

(** ** A small cluster on which the statements are exercised

    The cluster state counts the commands served.  Resources named [ghost]
    do not exist, the query for [broken] fails; pods are placed on nodes by
    their label selector. *)
Module Demo.

Definition isPod (kind : string) : bool :=
  String.eqb kind "pod" || String.eqb kind "pods" || String.eqb kind "deployment".

Definition pkg : kubectl.Pkg nat unit := {|
  kubectl.isPod := isPod;
  kubectl.run := fun _ args _ _ w =>
    match args with
    | ["get"; "pods"] => (("No resources found.", None), S w)
    | _ => (("", Some "unknown command"), S w)
    end;
  kubectl.isResourceDeployed := fun _ _ name _ _ w =>
    if String.eqb name "broken" then ((false, Some "connection refused"), S w)
    else if String.eqb name "ghost" then ((false, None), S w)
    else ((true, None), S w);
  kubectl.arePodsRunning := fun _ _ _ w => ((true, None), S w);
  kubectl.getRunningPods := fun _ _ labels w =>
    if String.eqb labels "app=none" then (([], None), S w)
    else ((["db-0"; "db-1"], None), S w);
  kubectl.getOldestRunningPod := fun _ _ labels w =>
    if String.eqb labels "app=none" then (("", None), S w)
    else if String.eqb labels "app=down" then (("", Some "timeout"), S w)
    else if String.eqb labels "app=stuck" then (("stuck-0", None), S w)
    else (("db-0", None), S w);
  kubectl.getPodNodes := fun _ _ labels w =>
    if String.eqb labels "app=db-a" then ((["node-a"], None), S w)
    else if String.eqb labels "app=db-b" then ((["node-b"], None), S w)
    else if String.eqb labels "app=down" then (([], Some "timeout"), S w)
    else (([], None), S w);
  kubectl.deletePod := fun _ name _ w =>
    if String.eqb name "stuck-0" then (Some "forbidden", S w) else (None, S w)
|}.

Definition comp (name kind labels alias : string) : Component :=
  mkComponent name "default" kind "v1" labels alias.

Definition install (cs : list Component) : KubeInstallVerify unit :=
  mkKubeInstallVerify (Some (mkInstallation "demo" "0.1" cs)) tt.

Definition start : State nat := mkState 0 [].

(** One readable descriptor; its text is parsed to an identifier only. *)
Definition readFile (file : string) (w : nat) : (string * error) * nat :=
  if String.eqb file "install.yaml" then (("verifyID: demo", None), S w)
  else (("", Some "no such file"), S w).

Definition parse (data : string) (i : Installation) : Installation * error :=
  if String.eqb data "verifyID: demo"
  then (mkInstallation "demo" (Version i) (Components i), None)
  else (i, Some "yaml: malformed").

End Demo.

(** ** Further notions: the running check, deletions, a second cluster *)

Definition isDelete (c : Call) : bool :=
  match c with CDeletePod _ _ => true | _ => false end.

Section RunningObservations.
Context {W KubeRunner : Type}.
Variable K : kubectl.Pkg W KubeRunner.
Variable k : KubeRunner.

Definition runningCall (c : Component) : Call :=
  CArePodsRunning (Namespace c) (Labels c).

(** What is observed for one component: a pod-kind component is as running
    as the cluster says its pods are; any other component counts as running
    and the cluster is not asked. *)
Definition runningAnswer (c : Component) (w : W) : (bool * error) * W :=
  if kubectl.isPod K (Kind c)
  then kubectl.arePodsRunning K k (Namespace c) (Labels c) w
  else ((true, None), w).

Fixpoint runningAnswers (cs : list Component) (w : W) : list (bool * error) * W :=
  match cs with
  | [] => ([], w)
  | c :: rest =>
    let '(a, w1) := runningAnswer c w in
    let '(more, w2) := runningAnswers rest w1 in
    (a :: more, w2)
  end.

(** The component names its kind and, when pod-kind, its labels. *)
Definition described (c : Component) : bool :=
  negb (blank (Kind c)) && (negb (kubectl.isPod K (Kind c)) || negb (blank (Labels c))).

(** The component names a kind that is not pod-kind. *)
Definition plainResource (c : Component) : bool :=
  negb (blank (Kind c)) && negb (kubectl.isPod K (Kind c)).

Definition runningPodsCall (c : Component) : Call :=
  CGetRunningPods (Namespace c) (Labels c).

End RunningObservations.

(** A cluster with failing and pending pods, for the statements on the
    running check and on [delete-any-pod]. *)
Module Flaky.

Definition pkg : kubectl.Pkg nat unit := {|
  kubectl.isPod := Demo.isPod;
  kubectl.run := kubectl.run Demo.pkg;
  kubectl.isResourceDeployed := kubectl.isResourceDeployed Demo.pkg;
  kubectl.arePodsRunning := fun _ _ labels w =>
    if String.eqb labels "app=down" then ((false, Some "timeout"), S w)
    else if String.eqb labels "app=pending" then ((false, None), S w)
    else ((true, None), S w);
  kubectl.getRunningPods := fun _ _ labels w =>
    if String.eqb labels "app=none" then (([], None), S w)
    else if String.eqb labels "app=down" then (([], Some "timeout"), S w)
    else if String.eqb labels "app=stuck" then ((["stuck-0"; "db-1"], None), S w)
    else ((["db-0"; "db-1"], None), S w);
  kubectl.getOldestRunningPod := kubectl.getOldestRunningPod Demo.pkg;
  kubectl.getPodNodes := kubectl.getPodNodes Demo.pkg;
  kubectl.deletePod := kubectl.deletePod Demo.pkg
|}.

End Flaky.

(** ** Auxiliary facts *)

Lemma blank_empty : blank "" = true.
Proof. reflexivity. Qed.

Example blank_spaces : blank (String (ascii_of_nat 9) "  ") = true.
Proof. reflexivity. Qed.

Example blank_no_break_space :
  blank (String (ascii_of_nat 194) (String (ascii_of_nat 160) " ")) = true.
Proof. reflexivity. Qed.

Example not_blank_selector : blank " name=app " = false.
Proof. reflexivity. Qed.

Example TrimSpace_selector : TrimSpace "  name=app,env=prod " = "name=app,env=prod".
Proof. reflexivity. Qed.

Lemma length_zero_empty (s : string) : (String.length s =? 0)%nat = true <-> s = "".
Proof.
  destruct s as [|a s]; simpl; split; intros H; try reflexivity; discriminate H.
Qed.

Lemma isNil_true (e : error) : isNil e = true <-> e = None.
Proof. destruct e; simpl; split; intros H; try reflexivity; discriminate H. Qed.

Lemma appendIf_from (test : Component -> bool) (cs acc : list Component) :
  fold_left (fun filtered c => if test c then filtered ++ [c] else filtered) cs acc
  = acc ++ List.filter test cs.
Proof.
  revert acc. induction cs as [|c cs IH]; intros acc; simpl.
  - by rewrite app_nil_r.
  - rewrite IH. destruct (test c); [|done].
    by rewrite <- app_assoc.
Qed.

Lemma appendIf_filter (test : Component -> bool) (cs : list Component) :
  appendIf test cs = List.filter test cs.
Proof. unfold appendIf. by rewrite appendIf_from. Qed.

Lemma filter_both {A} (p q : A -> bool) (l : list A) :
  List.filter (fun x => p x && q x) l = List.filter q (List.filter p l).
Proof.
  induction l as [|x l IH]; simpl; [done|].
  destruct (p x); simpl; [|done].
  destruct (q x); by rewrite IH.
Qed.

(** The map-based scan accepts exactly the lists without repetition whose
    elements are not in the map already. *)
Lemma noDuplicate_spec (nodes : list string) (seen : gmap string string) :
  noDuplicate nodes seen = true <->
  NoDup nodes /\ (forall n, n ∈ nodes -> seen !! n = None).
Proof.
  revert seen. induction nodes as [|n rest IH]; intros seen; simpl.
  - split; [intros _|done]. split; [constructor|]. intros n Hn. inversion Hn.
  - destruct (seen !! n) eqn:Hseen.
    + split; [done|]. intros [_ Hfresh].
      specialize (Hfresh n (list_elem_of_here _ _)). congruence.
    + rewrite IH. split.
      * intros [Hnd Hfresh]. split.
        -- constructor; [|done]. intros Hin.
           specialize (Hfresh n Hin). by rewrite lookup_insert_eq in Hfresh.
        -- intros x Hx. apply elem_of_cons in Hx as [->|Hx]; [done|].
           specialize (Hfresh x Hx).
           destruct (decide (n = x)) as [->|Hne].
           ++ by rewrite lookup_insert_eq in Hfresh.
           ++ by rewrite lookup_insert_ne in Hfresh.
      * intros [Hnd Hfresh]. apply NoDup_cons in Hnd as [Hnotin Hnd].
        split; [done|]. intros x Hx.
        rewrite lookup_insert_ne.
        -- apply Hfresh. by apply list_elem_of_further.
        -- intros ->. done.
Qed.

Lemma noDuplicate_NoDup (nodes : list string) :
  noDuplicate nodes ∅ = bool_decide (NoDup nodes).
Proof.
  destruct (noDuplicate nodes ∅) eqn:Hscan; symmetry.
  - apply bool_decide_eq_true. by apply noDuplicate_spec in Hscan as [? _].
  - apply bool_decide_eq_false. intros Hnd.
    assert (noDuplicate nodes ∅ = true) as Hyes; [|congruence].
    apply noDuplicate_spec. split; [done|]. intros; apply lookup_empty.
Qed.

Lemma last_cons_default {A} (x d : A) (l : list A) :
  List.last (x :: l) d = List.last l x.
Proof.
  revert x d. induction l as [|y l IH]; intros x d; [done|].
  change (List.last (x :: y :: l) d) with (List.last (y :: l) d).
  by rewrite !IH.
Qed.

Lemma state_eta {W} (s : State W) : mkState (world s) (calls s ++ []) = s.
Proof. destruct s; simpl. by rewrite app_nil_r. Qed.

(** ** The deployment and running checks *)

Section Aggregation.
Context {W KubeRunner : Type}.
Variable K : kubectl.Pkg W KubeRunner.
Variable v : KubeInstallVerify KubeRunner.

Lemma isComponentDeployed_step (c : Component) (s : State W) a w1 :
  deployedAnswer K (kubectl v) c (world s) = (a, w1) ->
  isComponentDeployed K v c s = (Returns a, mkState w1 (calls s ++ [deployedCall c])).
Proof.
  unfold isComponentDeployed, kubectl.IsResourceDeployed, invoke, deployedAnswer.
  by intros ->.
Qed.

(** No error anywhere: every component is queried and the last answer wins. *)
Lemma rangeComponents_deployed_all (cs : list Component) :
  forall yes s obs w',
    deployedAnswers K (kubectl v) cs (world s) = (obs, w') ->
    Forall noError obs ->
    rangeComponents (isComponentDeployed K v) cs yes None s
    = (Returns (List.last (map fst obs) yes, None),
       mkState w' (calls s ++ map deployedCall cs)).
Proof.
  induction cs as [|c rest IH]; intros yes s obs w' Hobs Hok; simpl in *.
  - injection Hobs as <- <-. unfold ret. by rewrite state_eta.
  - destruct (deployedAnswer K (kubectl v) c (world s)) as [a w1] eqn:Ha.
    destruct (deployedAnswers K (kubectl v) rest w1) as [more w2] eqn:Hmore.
    injection Hobs as <- <-.
    apply Forall_cons in Hok as [Hnil Hok].
    destruct a as [b e]. unfold noError in Hnil; simpl in Hnil; subst e.
    unfold bind. rewrite (isComponentDeployed_step c s _ _ Ha). simpl.
    rewrite (IH b (mkState w1 (calls s ++ [deployedCall c])) more w2 Hmore Hok).
    rewrite <- (last_cons_default b yes). simpl. by rewrite <- app_assoc.
Qed.

(** An error stops the loop: the components after it are not queried. *)
Lemma rangeComponents_deployed_error (pre : list Component) c post :
  forall yes s obs w1 b e w2,
    deployedAnswers K (kubectl v) pre (world s) = (obs, w1) ->
    Forall noError obs ->
    deployedAnswer K (kubectl v) c w1 = ((b, Some e), w2) ->
    rangeComponents (isComponentDeployed K v) (pre ++ c :: post) yes None s
    = (Returns (b, Some e), mkState w2 (calls s ++ map deployedCall (pre ++ [c]))).
Proof.
  induction pre as [|p pre IH]; intros yes s obs w1 b e w2 Hobs Hok Hc; simpl in *.
  - injection Hobs as <- <-.
    unfold bind. by rewrite (isComponentDeployed_step c s _ _ Hc).
  - destruct (deployedAnswer K (kubectl v) p (world s)) as [a w0] eqn:Ha.
    destruct (deployedAnswers K (kubectl v) pre w0) as [more w] eqn:Hmore.
    injection Hobs as <- <-.
    apply Forall_cons in Hok as [Hnil Hok].
    destruct a as [b0 e0]. unfold noError in Hnil; simpl in Hnil; subst e0.
    unfold bind. rewrite (isComponentDeployed_step p s _ _ Ha). simpl.
    rewrite (IH b0 (mkState w0 (calls s ++ [deployedCall p])) more w b e w2 Hmore Hok Hc).
    simpl. by rewrite <- app_assoc.
Qed.

(** A check that always returns stops the loop with an error as soon as it
    meets a component for which the check fails in every state. *)
Lemma rangeComponents_fails (check : Component -> M W (bool * error)) c :
  (forall c' s, exists r s', check c' s = (Returns r, s')) ->
  (forall s, exists b e s', check c s = (Returns (b, Some e), s')) ->
  forall cs yes err s,
    c ∈ cs ->
    exists b e s', rangeComponents check cs yes err s = (Returns (b, Some e), s').
Proof.
  intros Htotal Hfail cs. induction cs as [|c0 rest IH]; intros yes err s Hin.
  - inversion Hin.
  - simpl. unfold bind.
    apply elem_of_cons in Hin as [<-|Hin].
    + destruct (Hfail s) as (b & e & s' & ->). simpl. by exists b, e, s'.
    + destruct (Htotal c0 s) as ([b [e|]] & s' & ->); simpl.
      * by exists b, e, s'.
      * by apply IH.
Qed.

(** A prefix that passes the check hands its last answer and state on. *)
Lemma rangeComponents_prefix (check : Component -> M W (bool * error))
    (pre rest : list Component) :
  forall yes s yes1 s1,
    rangeComponents check pre yes None s = (Returns (yes1, None), s1) ->
    rangeComponents check (pre ++ rest) yes None s
    = rangeComponents check rest yes1 None s1.
Proof.
  induction pre as [|p pre IH]; intros yes s yes1 s1 Hpre; simpl in *.
  - by injection Hpre as <- <-.
  - unfold bind in *.
    destruct (check p s) as [[[b [e|]]|] s0]; simpl in *; [done| |done].
    by apply IH.
Qed.

End Aggregation.

(** ** The node collection of the unique-node condition *)

Section Placement.
Context {W KubeRunner : Type}.
Variable K : kubectl.Pkg W KubeRunner.
Variable v : KubeInstallVerify KubeRunner.

(** When every pod-kind component has labels and every node query succeeds,
    the loop returns the concatenation of the reported nodes; only pod-kind
    components are queried. *)
Lemma collectNodes_reported (fs : list Component) :
  forall acc s ns w',
    Forall labelled (pods K fs) ->
    reportedNodes K (kubectl v) (pods K fs) (world s) = Some (ns, w') ->
    collectNodes K v fs acc s
    = (Returns (inl (acc ++ ns)), mkState w' (calls s ++ map nodesCall (pods K fs))).
Proof.
  unfold pods.
  induction fs as [|f rest IH]; intros acc s ns w' Hlab Hrep; simpl in *.
  - injection Hrep as <- <-. unfold ret. by rewrite app_nil_r, state_eta.
  - unfold kubectl.IsPod. destruct (kubectl.isPod K (Kind f)) eqn:Hpod; simpl in *.
    + apply Forall_cons in Hlab as [Hf Hlab]. unfold labelled in Hf. rewrite Hf.
      unfold bind, kubectl.GetPodNodes, invoke.
      destruct (kubectl.getPodNodes K (kubectl v) (Namespace f) (Labels f) (world s))
        as [[n [e|]] w1]; [done|].
      destruct (reportedNodes K (kubectl v) _ w1) as [[more w2]|] eqn:Hmore; [|done].
      injection Hrep as <- <-. simpl.
      rewrite (IH (acc ++ n)
                  (mkState w1 (calls s ++ [CGetPodNodes (Namespace f) (Labels f)]))
                  more w2 Hlab Hmore).
      simpl. by rewrite <- !app_assoc.
    + by apply IH.
Qed.

(** Conversely, the loop only completes in that situation. *)
Lemma collectNodes_completes (fs : list Component) :
  forall acc s nodes s',
    collectNodes K v fs acc s = (Returns (inl nodes), s') ->
    exists ns, nodes = acc ++ ns /\ Forall labelled (pods K fs) /\
               reportedNodes K (kubectl v) (pods K fs) (world s) = Some (ns, world s').
Proof.
  unfold pods.
  induction fs as [|f rest IH]; intros acc s nodes s' Hrun; simpl in *.
  - injection Hrun as <- <-. exists []. by rewrite app_nil_r.
  - unfold kubectl.IsPod in Hrun.
    destruct (kubectl.isPod K (Kind f)) eqn:Hpod; simpl in *; [|by apply IH].
    destruct (blank (Labels f)) eqn:Hblank; [done|].
    unfold bind, kubectl.GetPodNodes, invoke in Hrun.
    destruct (kubectl.getPodNodes K (kubectl v) (Namespace f) (Labels f) (world s))
      as [[n [e|]] w1]; simpl in Hrun; [done|].
    apply IH in Hrun as (more & -> & Hlab & Hmore). simpl in Hmore.
    exists (n ++ more). rewrite Hmore.
    split; [by rewrite app_assoc|]. split; [|done].
    by constructor.
Qed.

(** The loop never panics, and an early return carries [false]. *)
Lemma collectNodes_early (fs : list Component) :
  forall acc s r s',
    collectNodes K v fs acc s = (r, s') ->
    exists x, r = Returns x /\ forall b e, x = inr (b, e) -> b = false /\ e <> None.
Proof.
  induction fs as [|f rest IH]; intros acc s r s' Hrun; simpl in *.
  - injection Hrun as <- <-. by eexists.
  - destruct (kubectl.IsPod K (Kind f)); simpl in *; [|by eapply IH].
    destruct (blank (Labels f)).
    { injection Hrun as <- <-. eexists; split; [done|]. by intros b e [= <- <-]. }
    unfold bind, kubectl.GetPodNodes, invoke in Hrun.
    destruct (kubectl.getPodNodes K (kubectl v) (Namespace f) (Labels f) (world s))
      as [[n [e|]] w1]; simpl in Hrun; [|by eapply IH].
    injection Hrun as <- <-. eexists; split; [done|]. by intros b e' [= <- <-].
Qed.

End Placement.

(** ** Properties of [IsDeployed] and [IsRunning] *)

Section DeployRun.
Context {W KubeRunner : Type}.
Variable K : kubectl.Pkg W KubeRunner.

(** C1.  With a non-nil descriptor, [IsDeployed] queries the components in
    order.  If no query fails, every component is queried and the boolean
    returned is the one observed for the last component, whatever the earlier
    ones answered (so it is not their conjunction).  If the query of some
    component fails after the earlier ones succeeded, the loop stops there:
    that error is returned and the later components are not queried. *)
Theorem IsDeployed_returns_last_observed
    (k : KubeRunner) (i : Installation) (s : State W) :
  let v := mkKubeInstallVerify (Some i) k in
  (forall obs w',
      deployedAnswers K k (Components i) (world s) = (obs, w') ->
      Forall noError obs ->
      IsDeployed K v s
      = (Returns (List.last (map fst obs) false, None),
         mkState w' (calls s ++ map deployedCall (Components i))))
  /\ (forall front b w',
      deployedAnswers K k (Components i) (world s) = (front ++ [(b, None)], w') ->
      Forall noError front ->
      IsDeployed K v s
      = (Returns (b, None), mkState w' (calls s ++ map deployedCall (Components i))))
  /\ (forall pre c post obs w1 b e w2,
      Components i = pre ++ c :: post ->
      deployedAnswers K k pre (world s) = (obs, w1) ->
      Forall noError obs ->
      deployedAnswer K k c w1 = ((b, Some e), w2) ->
      IsDeployed K v s
      = (Returns (b, Some e), mkState w2 (calls s ++ map deployedCall (pre ++ [c])))).
Proof.
  intros v. split; [|split].
  - intros obs w' Hobs Hok. unfold IsDeployed. simpl.
    by apply (rangeComponents_deployed_all K v).
  - intros front b w' Hobs Hok. unfold IsDeployed. simpl.
    rewrite (rangeComponents_deployed_all K v _ false s _ w' Hobs).
    + rewrite List.map_app. cbn [map fst]. by rewrite last_last.
    + apply Forall_app. split; [done|]. by repeat constructor.
  - intros pre c post obs w1 b e w2 Hcs Hobs Hok Hc. unfold IsDeployed. simpl.
    rewrite Hcs. by apply (rangeComponents_deployed_error K v) with (obs := obs) (w1 := w1).
Qed.

(** C10.  With an empty list of components both checks return
    [(false, nil)]; the state, and with it the call log, is unchanged: no
    query is made. *)
Theorem empty_installation_neither_deployed_nor_running
    (k : KubeRunner) (i : Installation) (s : State W) :
  Components i = [] ->
  IsDeployed K (mkKubeInstallVerify (Some i) k) s = (Returns (false, None), s)
  /\ IsRunning K (mkKubeInstallVerify (Some i) k) s = (Returns (false, None), s).
Proof.
  intros Hempty. unfold IsDeployed, IsRunning. simpl. by rewrite Hempty.
Qed.

End DeployRun.

(** The result of [IsDeployed] differs from the conjunction of the answers:
    the first resource does not exist, the second does, and the check says
    yes. *)
Example IsDeployed_is_not_conjunction :
  let cs := [Demo.comp "ghost" "service" "" "svc"; Demo.comp "web" "service" "" "svc"] in
  IsDeployed Demo.pkg (Demo.install cs) Demo.start
  = (Returns (true, None), mkState 2 (map deployedCall cs))
  /\ forallb fst (deployedAnswers Demo.pkg tt cs 0).1 = false.
Proof. split; reflexivity. Qed.

Lemma IsDeployed_returns_last_observed_witness :
  let web := Demo.comp "web" "service" "" "svc" in
  let ghost := Demo.comp "ghost" "service" "" "svc" in
  let broken := Demo.comp "broken" "service" "" "svc" in
  IsDeployed Demo.pkg (Demo.install [web; ghost]) Demo.start
  = (Returns (false, None), mkState 2 [deployedCall web; deployedCall ghost])
  /\ IsDeployed Demo.pkg (Demo.install [web; broken; ghost]) Demo.start
     = (Returns (false, Some "connection refused"),
        mkState 2 [deployedCall web; deployedCall broken]).
Proof.
  intros web ghost broken. split.
  - destruct (IsDeployed_returns_last_observed Demo.pkg tt
                (mkInstallation "demo" "0.1" [web; ghost]) Demo.start)
      as (_ & Hlast & _).
    apply (Hlast [(true, None)] false 2); [reflexivity|].
    repeat constructor.
  - destruct (IsDeployed_returns_last_observed Demo.pkg tt
                (mkInstallation "demo" "0.1" [web; broken; ghost]) Demo.start)
      as (_ & _ & Hstop).
    apply (Hstop [web] broken [ghost] [(true, None)] 1 false "connection refused" 2);
      [reflexivity|reflexivity| |reflexivity].
    repeat constructor.
Defined.

Lemma empty_installation_neither_deployed_nor_running_witness :
  IsDeployed Demo.pkg (Demo.install []) Demo.start = (Returns (false, None), Demo.start)
  /\ IsRunning Demo.pkg (Demo.install []) Demo.start = (Returns (false, None), Demo.start).
Proof.
  apply (empty_installation_neither_deployed_nor_running Demo.pkg tt
           (mkInstallation "demo" "0.1" []) Demo.start).
  reflexivity.
Defined.

(** ** Alias resolution *)

Section AliasResolution.
Context {W KubeRunner : Type}.
Variable K : kubectl.Pkg W KubeRunner.

Lemma getMatchingPodComponent_filter (k : KubeRunner) (i : Installation)
    (alias : string) (s : State W) :
  getMatchingPodComponent K (mkKubeInstallVerify (Some i) k) alias s
  = match List.filter (podWithAlias K alias) (Components i) with
    | [] => (Returns (zeroComponent, notFound alias), s)
    | [c] => (Returns (c, None), s)
    | _ :: _ :: _ => (Returns (zeroComponent, notUnique alias), s)
    end.
Proof.
  unfold getMatchingPodComponent. simpl. rewrite appendIf_filter.
  change (fun c => String.eqb (Alias c) alias && kubectl.IsPod K (Kind c))
    with (podWithAlias K alias).
  by destruct (List.filter (podWithAlias K alias) (Components i)) as [|c [|c' l]].
Qed.

Lemma getMatchingPodComponent_error (k : KubeRunner) (i : Installation)
    (alias : string) (s : State W) :
  length (List.filter (podWithAlias K alias) (Components i)) <> 1 ->
  exists e,
    getMatchingPodComponent K (mkKubeInstallVerify (Some i) k) alias s
    = (Returns (zeroComponent, Some e), s).
Proof.
  intros Hlen. rewrite getMatchingPodComponent_filter.
  destruct (List.filter (podWithAlias K alias) (Components i)) as [|c [|c' l]];
    [by eexists|done|by eexists].
Qed.

(** C3.  [getMatchingPodComponent] returns a component and a nil error
    exactly when one component of the installation is pod-kind and carries the
    alias, and then it returns that component.  With no such component, and
    with two or more, it returns an error, and so do both alias-keyed actions,
    which make no call to the cluster. *)
Theorem getMatchingPodComponent_exactly_one
    (k : KubeRunner) (i : Installation) (alias : string) (s : State W) :
  let v := mkKubeInstallVerify (Some i) k in
  let matching := List.filter (podWithAlias K alias) (Components i) in
  (forall c, matching = [c] ->
             getMatchingPodComponent K v alias s = (Returns (c, None), s))
  /\ (matching = [] ->
      getMatchingPodComponent K v alias s = (Returns (zeroComponent, notFound alias), s))
  /\ (2 <= length matching ->
      getMatchingPodComponent K v alias s = (Returns (zeroComponent, notUnique alias), s))
  /\ ((exists c s', getMatchingPodComponent K v alias s = (Returns (c, None), s'))
      <-> length matching = 1)
  /\ (length matching <> 1 ->
      forall action, action = DeleteAnyPodAction \/ action = DeleteOldestPodAction ->
                     exists e, IsAction K v alias action s = (Returns (false, Some e), s)).
Proof.
  intros v matching. subst v.
  pose proof (getMatchingPodComponent_filter k i alias s) as Hget.
  fold matching in Hget.
  repeat split.
  - intros c Hone. by rewrite Hget, Hone.
  - intros Hnone. by rewrite Hget, Hnone.
  - intros Hmany. rewrite Hget. destruct matching as [|c [|c' l]]; simpl in Hmany; [lia|lia|done].
  - intros (c & s' & Hc). rewrite Hget in Hc.
    by destruct matching as [|c0 [|c' l]].
  - intros Hlen. destruct matching as [|c [|c' l]]; try done.
    exists c, s. by rewrite Hget.
  - intros Hlen action Haction.
    destruct (getMatchingPodComponent_error k i alias s Hlen) as [e He].
    exists e. unfold IsAction, isDeleteAnyRunningPod, isDeleteOldestRunningPod, bind.
    destruct Haction as [-> | ->]; simpl; by rewrite He.
Qed.

End AliasResolution.

Lemma getMatchingPodComponent_exactly_one_witness :
  let db := Demo.comp "db" "pod" "app=db-a" "db" in
  let svc := Demo.comp "db-svc" "service" "" "db" in
  let v := Demo.install [db; svc; db] in
  getMatchingPodComponent Demo.pkg (Demo.install [db; svc]) "db" Demo.start
  = (Returns (db, None), Demo.start)
  /\ getMatchingPodComponent Demo.pkg (Demo.install [db; svc]) "web" Demo.start
     = (Returns (zeroComponent, notFound "web"), Demo.start)
  /\ getMatchingPodComponent Demo.pkg v "db" Demo.start
     = (Returns (zeroComponent, notUnique "db"), Demo.start)
  /\ exists e, IsAction Demo.pkg v "db" DeleteOldestPodAction Demo.start
               = (Returns (false, Some e), Demo.start).
Proof.
  intros db svc v.
  destruct (getMatchingPodComponent_exactly_one Demo.pkg tt
              (mkInstallation "demo" "0.1" [db; svc]) "db" Demo.start)
    as (Hone & _).
  destruct (getMatchingPodComponent_exactly_one Demo.pkg tt
              (mkInstallation "demo" "0.1" [db; svc]) "web" Demo.start)
    as (_ & Hnone & _).
  destruct (getMatchingPodComponent_exactly_one Demo.pkg tt
              (mkInstallation "demo" "0.1" [db; svc; db]) "db" Demo.start)
    as (_ & _ & Hmany & _ & Hact).
  split; [apply Hone; reflexivity|].
  split; [apply Hnone; reflexivity|].
  split; [apply Hmany; simpl; lia|].
  apply Hact; [simpl; lia | by right].
Defined.

(** ** Components without labels or without kind *)

Section MissingFields.
Context {W KubeRunner : Type}.
Variable K : kubectl.Pkg W KubeRunner.

Lemma isPodComponentRunning_returns (v : KubeInstallVerify KubeRunner)
    (c : Component) (s : State W) :
  exists r s', isPodComponentRunning K v c s = (Returns r, s').
Proof.
  unfold isPodComponentRunning, kubectl.ArePodsRunning, invoke, ret.
  destruct (negb _); [by eexists _, _|].
  destruct (blank (Labels c)); [by eexists _, _|].
  destruct (kubectl.arePodsRunning _ _ _ _ _); by eexists _, _.
Qed.

Lemma isPodComponentRunning_no_labels (v : KubeInstallVerify KubeRunner)
    (c : Component) (s : State W) :
  kubectl.isPod K (Kind c) = true ->
  blank (Labels c) = true ->
  isPodComponentRunning K v c s = (Returns (false, labelsRequired (Kind c)), s).
Proof.
  intros Hpod Hblank. unfold isPodComponentRunning, kubectl.IsPod.
  by rewrite Hpod, Hblank.
Qed.

(** C4.  For a pod-kind component whose labels are empty or white space
    only: the running check of the component returns an error without
    querying the cluster; [IsRunning] of any installation that contains the
    component returns an error; and both alias-keyed actions return an error
    when the component is the one pod-kind component with the alias, the
    state (cluster and call log) being unchanged: nothing is queried or
    deleted. *)
Theorem pod_without_labels_fails (k : KubeRunner) (c : Component) (s : State W) :
  kubectl.isPod K (Kind c) = true ->
  blank (Labels c) = true ->
  (forall v, isPodComponentRunning K v c s
             = (Returns (false, labelsRequired (Kind c)), s))
  /\ (forall i, c ∈ Components i ->
                exists yes e s',
                  IsRunning K (mkKubeInstallVerify (Some i) k) s
                  = (Returns (yes, Some e), s'))
  /\ (forall i alias action,
         List.filter (podWithAlias K alias) (Components i) = [c] ->
         action = DeleteAnyPodAction \/ action = DeleteOldestPodAction ->
         IsAction K (mkKubeInstallVerify (Some i) k) alias action s
         = (Returns (false, labelsMissing (Kind c) alias), s)).
Proof.
  intros Hpod Hblank. repeat split.
  - intros v. by apply isPodComponentRunning_no_labels.
  - intros i Hin. unfold IsRunning. simpl.
    apply rangeComponents_fails with (c := c); [| |done].
    + intros c' s0. apply isPodComponentRunning_returns.
    + intros s0. eexists _, _, _. by apply isPodComponentRunning_no_labels.
  - intros i alias action Hone Haction.
    unfold IsAction, isDeleteAnyRunningPod, isDeleteOldestRunningPod, bind.
    destruct Haction as [-> | ->]; simpl;
      by rewrite getMatchingPodComponent_filter, Hone; simpl; rewrite Hblank.
Qed.

(** C9.  For a component whose kind is empty or white space only and is
    classified as non-pod, the running check sets the kind error and then
    takes the non-pod branch: it returns [true] together with that non-nil
    error, without a query.  [IsRunning] of an installation in which the
    components before this one pass the check returns the same pair. *)
Theorem blank_kind_yields_true_with_error (k : KubeRunner) (c : Component) :
  blank (Kind c) = true ->
  kubectl.isPod K (Kind c) = false ->
  (forall v s, isPodComponentRunning K v c s = (Returns (true, kindRequired), s))
  /\ (forall i pre post s yes1 s1,
         Components i = pre ++ c :: post ->
         rangeComponents (isPodComponentRunning K (mkKubeInstallVerify (Some i) k))
                         pre false None s
         = (Returns (yes1, None), s1) ->
         IsRunning K (mkKubeInstallVerify (Some i) k) s
         = (Returns (true, kindRequired), s1))
  /\ kindRequired <> None.
Proof.
  intros Hblank Hpod.
  assert (forall v s, isPodComponentRunning K v c s = (Returns (true, kindRequired), s))
    as Hcheck.
  { intros v s. unfold isPodComponentRunning, kubectl.IsPod. by rewrite Hblank, Hpod. }
  repeat split; [done| |done].
  intros i pre post s yes1 s1 Hcs Hpre. unfold IsRunning. simpl. rewrite Hcs.
  rewrite (rangeComponents_prefix _ pre (c :: post) false s yes1 s1 Hpre).
  simpl. unfold bind. by rewrite Hcheck.
Qed.

End MissingFields.

Lemma pod_without_labels_fails_witness :
  let bare := Demo.comp "db" "pod" "  " "db" in
  let web := Demo.comp "web" "service" "" "web" in
  isPodComponentRunning Demo.pkg (Demo.install [web; bare]) bare Demo.start
  = (Returns (false, labelsRequired "pod"), Demo.start)
  /\ (exists yes e s', IsRunning Demo.pkg (Demo.install [web; bare]) Demo.start
                       = (Returns (yes, Some e), s'))
  /\ IsAction Demo.pkg (Demo.install [web; bare]) "db" DeleteAnyPodAction Demo.start
     = (Returns (false, labelsMissing "pod" "db"), Demo.start)
  /\ IsAction Demo.pkg (Demo.install [web; bare]) "db" DeleteOldestPodAction Demo.start
     = (Returns (false, labelsMissing "pod" "db"), Demo.start).
Proof.
  intros bare web.
  destruct (pod_without_labels_fails Demo.pkg tt bare Demo.start)
    as (Hcheck & Hrun & Hact); [reflexivity|reflexivity|].
  split; [apply Hcheck|].
  split; [apply (Hrun (mkInstallation "demo" "0.1" [web; bare]));
          apply list_elem_of_further, list_elem_of_here|].
  split; apply (Hact (mkInstallation "demo" "0.1" [web; bare]));
    first [reflexivity | by left | by right].
Defined.

Lemma blank_kind_yields_true_with_error_witness :
  let anon := Demo.comp "anon" " " "app=db-a" "db" in
  let web := Demo.comp "web" "service" "" "web" in
  let db := Demo.comp "db" "pod" "app=db-a" "db" in
  isPodComponentRunning Demo.pkg (Demo.install [web; anon; db]) anon Demo.start
  = (Returns (true, kindRequired), Demo.start)
  /\ IsRunning Demo.pkg (Demo.install [web; anon; db]) Demo.start
     = (Returns (true, kindRequired), Demo.start).
Proof.
  intros anon web db.
  destruct (blank_kind_yields_true_with_error Demo.pkg tt anon)
    as (Hcheck & Hrun & _); [reflexivity|reflexivity|].
  split; [apply Hcheck|].
  apply (Hrun (mkInstallation "demo" "0.1" [web; anon; db]) [web] [db] Demo.start true);
    reflexivity.
Defined.

(** ** Actions, conditions, connection and loading *)

Section Dispatch.
Context {W KubeRunner : Type}.
Variable K : kubectl.Pkg W KubeRunner.

(** C5.  The delete-oldest-pod action, for an alias resolved to one pod-kind
    component with labels.  An empty pod name from the query gives the
    not-found error, and the log shows the query only: nothing is deleted.
    A pod name followed by a successful delete gives [(true, nil)].  An error
    of the query or of the delete is returned as it is, with [false]. *)
Theorem delete_oldest_pod_outcomes
    (k : KubeRunner) (i : Installation) (alias : string) (c : Component) (s : State W) :
  List.filter (podWithAlias K alias) (Components i) = [c] ->
  blank (Labels c) = false ->
  let v := mkKubeInstallVerify (Some i) k in
  let oldest := kubectl.getOldestRunningPod K k (Namespace c) (Labels c) (world s) in
  let fetch := CGetOldestRunningPod (Namespace c) (Labels c) in
  (forall w1, oldest = (("", None), w1) ->
     IsAction K v alias DeleteOldestPodAction s
     = (Returns (false, oldestPodNotFound alias), mkState w1 (calls s ++ [fetch])))
  /\ (forall pod w1 w2,
     oldest = ((pod, None), w1) -> pod <> "" ->
     kubectl.deletePod K k pod (Namespace c) w1 = (None, w2) ->
     IsAction K v alias DeleteOldestPodAction s
     = (Returns (true, None),
        mkState w2 (calls s ++ [fetch; CDeletePod pod (Namespace c)])))
  /\ (forall pod e w1,
     oldest = ((pod, Some e), w1) ->
     IsAction K v alias DeleteOldestPodAction s
     = (Returns (false, Some e), mkState w1 (calls s ++ [fetch])))
  /\ (forall pod e w1 w2,
     oldest = ((pod, None), w1) -> pod <> "" ->
     kubectl.deletePod K k pod (Namespace c) w1 = (Some e, w2) ->
     IsAction K v alias DeleteOldestPodAction s
     = (Returns (false, Some e),
        mkState w2 (calls s ++ [fetch; CDeletePod pod (Namespace c)]))).
Proof.
  intros Hone Hlabels v oldest fetch. subst v oldest fetch.
  assert (forall pod, pod <> "" -> (String.length pod =? 0)%nat = false) as Hlen.
  { intros pod Hpod. destruct (String.length pod =? 0)%nat eqn:Hz; [|done].
    by apply length_zero_empty in Hz. }
  unfold IsAction, isDeleteOldestRunningPod, bind. simpl.
  rewrite getMatchingPodComponent_filter, Hone. simpl. rewrite Hlabels.
  unfold kubectl.GetOldestRunningPod, kubectl.DeletePod, invoke. simpl.
  repeat split.
  - intros w1 ->. done.
  - intros pod w1 w2 -> Hpod Hdel. simpl. rewrite (Hlen pod Hpod). simpl.
    rewrite Hdel. simpl. by rewrite <- app_assoc.
  - intros pod e w1 ->. done.
  - intros pod e w1 w2 -> Hpod Hdel. simpl. rewrite (Hlen pod Hpod). simpl.
    rewrite Hdel. simpl. by rewrite <- app_assoc.
Qed.

(** C6.  A condition other than [unique-node], and an action other than
    [delete-any-pod] and [delete-oldest-pod], is answered by [false] and an
    error, without touching the installation or the cluster. *)
Theorem unsupported_names_are_errors
    (v : KubeInstallVerify KubeRunner) (alias : string) (s : State W) :
  (forall condition,
      condition <> UniqueNodeCond ->
      IsCondition K v alias condition s
      = (Returns (false, conditionNotSupported condition), s))
  /\ (forall action,
      action <> DeleteAnyPodAction -> action <> DeleteOldestPodAction ->
      IsAction K v alias action s = (Returns (false, actionNotSupported action), s)).
Proof.
  split.
  - intros condition Hne. unfold IsCondition.
    apply String.eqb_neq in Hne. by rewrite Hne.
  - intros action Hany Hold. unfold IsAction.
    apply String.eqb_neq in Hany, Hold. by rewrite Hany, Hold.
Qed.

(** C7.  [IsConnected] makes one call, [Run] of [get pods] with empty
    namespace and context; it returns the error of that call unchanged, and
    [yes] is true exactly when that error is nil. *)
Theorem IsConnected_iff_Run_succeeds
    (c : KubeConnectionVerify KubeRunner) (s : State W) out err w' :
  kubectl.run K (conn_kubectl c) ["get"; "pods"] "" "" (world s) = ((out, err), w') ->
  exists yes,
    IsConnected K c s
    = (Returns (yes, err), mkState w' (calls s ++ [CRun ["get"; "pods"] "" ""]))
    /\ (yes = true <-> err = None).
Proof.
  intros Hrun. exists (isNil err). split.
  - unfold IsConnected, bind, kubectl.Run, invoke. rewrite Hrun.
    by destruct err.
  - apply isNil_true.
Qed.

End Dispatch.

Section Loading.
Context {W KubeRunner : Type}.
Variable ReadFile : string -> W -> (string * error) * W.
Variable yaml_Unmarshal : string -> Installation -> Installation * error.

(** C8.  With a path of length zero, [load] returns a nil installation and an
    error without reading any file, and [NewKubeInstallVerify] returns a nil
    verifier and that error. *)
Theorem load_empty_path_fails (runner : KubeRunner) (file : VerifyFile) (s : State W) :
  String.length file = 0 ->
  load ReadFile yaml_Unmarshal file s = (Returns (None, noVerifyFile), s)
  /\ NewKubeInstallVerify ReadFile yaml_Unmarshal runner file s
     = (Returns (None, noVerifyFile), s)
  /\ noVerifyFile <> None.
Proof.
  intros Hlen. unfold NewKubeInstallVerify, bind, load. by rewrite Hlen.
Qed.

End Loading.

Lemma delete_oldest_pod_outcomes_witness :
  let v labels := Demo.install [Demo.comp "db" "pod" labels "db";
                                Demo.comp "db-svc" "service" "" "db"] in
  let fetch labels := CGetOldestRunningPod "default" labels in
  IsAction Demo.pkg (v "app=none") "db" DeleteOldestPodAction Demo.start
  = (Returns (false, oldestPodNotFound "db"), mkState 1 [fetch "app=none"])
  /\ IsAction Demo.pkg (v "app=db") "db" DeleteOldestPodAction Demo.start
     = (Returns (true, None), mkState 2 [fetch "app=db"; CDeletePod "db-0" "default"])
  /\ IsAction Demo.pkg (v "app=down") "db" DeleteOldestPodAction Demo.start
     = (Returns (false, Some "timeout"), mkState 1 [fetch "app=down"])
  /\ IsAction Demo.pkg (v "app=stuck") "db" DeleteOldestPodAction Demo.start
     = (Returns (false, Some "forbidden"),
        mkState 2 [fetch "app=stuck"; CDeletePod "stuck-0" "default"]).
Proof.
  intros v fetch.
  pose (inst labels := mkInstallation "demo" "0.1"
                         [Demo.comp "db" "pod" labels "db";
                          Demo.comp "db-svc" "service" "" "db"]).
  destruct (delete_oldest_pod_outcomes Demo.pkg tt (inst "app=none") "db"
              (Demo.comp "db" "pod" "app=none" "db") Demo.start)
    as (Hnone & _); [reflexivity|reflexivity|].
  destruct (delete_oldest_pod_outcomes Demo.pkg tt (inst "app=db") "db"
              (Demo.comp "db" "pod" "app=db" "db") Demo.start)
    as (_ & Hdeleted & _); [reflexivity|reflexivity|].
  destruct (delete_oldest_pod_outcomes Demo.pkg tt (inst "app=down") "db"
              (Demo.comp "db" "pod" "app=down" "db") Demo.start)
    as (_ & _ & Hfetch & _); [reflexivity|reflexivity|].
  destruct (delete_oldest_pod_outcomes Demo.pkg tt (inst "app=stuck") "db"
              (Demo.comp "db" "pod" "app=stuck" "db") Demo.start)
    as (_ & _ & _ & Hdelete); [reflexivity|reflexivity|].
  split; [apply (Hnone 1); reflexivity|].
  split; [apply (Hdeleted "db-0" 1 2); [reflexivity|discriminate|reflexivity]|].
  split; [apply (Hfetch "" "timeout" 1); reflexivity|].
  apply (Hdelete "stuck-0" "forbidden" 1 2); [reflexivity|discriminate|reflexivity].
Defined.

Lemma unsupported_names_are_errors_witness :
  IsCondition Demo.pkg (Demo.install []) "db" "anti-affinity" Demo.start
  = (Returns (false, conditionNotSupported "anti-affinity"), Demo.start)
  /\ IsAction Demo.pkg (Demo.install []) "db" "delete-all-pods" Demo.start
     = (Returns (false, actionNotSupported "delete-all-pods"), Demo.start).
Proof.
  destruct (unsupported_names_are_errors Demo.pkg (Demo.install []) "db" Demo.start)
    as (Hcond & Hact).
  split; [apply Hcond; discriminate | apply Hact; discriminate].
Defined.

Lemma IsConnected_iff_Run_succeeds_witness :
  exists yes,
    IsConnected Demo.pkg (NewKubeConnectionVerify tt) Demo.start
    = (Returns (yes, None), mkState 1 [CRun ["get"; "pods"] "" ""])
    /\ (yes = true <-> @None string = None).
Proof.
  apply (IsConnected_iff_Run_succeeds Demo.pkg (NewKubeConnectionVerify tt) Demo.start
           "No resources found." None 1).
  reflexivity.
Defined.

Lemma load_empty_path_fails_witness :
  load Demo.readFile Demo.parse "" Demo.start = (Returns (None, noVerifyFile), Demo.start)
  /\ NewKubeInstallVerify Demo.readFile Demo.parse tt "" Demo.start
     = (Returns (None, noVerifyFile), Demo.start)
  /\ noVerifyFile <> None.
Proof.
  apply (load_empty_path_fails Demo.readFile Demo.parse tt "" Demo.start).
  reflexivity.
Defined.

(** A non-empty path is read, and the descriptor becomes the installation. *)
Example NewKubeInstallVerify_reads_descriptor :
  NewKubeInstallVerify Demo.readFile Demo.parse tt "install.yaml" Demo.start
  = (Returns (Some (mkKubeInstallVerify (Some (mkInstallation "demo" "" [])) tt), None),
     mkState 1 [CReadFile "install.yaml"]).
Proof. reflexivity. Qed.

(** ** The unique-node condition *)

Section UniqueNode.
Context {W KubeRunner : Type}.
Variable K : kubectl.Pkg W KubeRunner.

Lemma matching_pods (alias : string) (cs : list Component) :
  List.filter (podWithAlias K alias) cs
  = pods K (List.filter (fun c => String.eqb (Alias c) alias) cs).
Proof.
  apply (filter_both (fun c => String.eqb (Alias c) alias)
                     (fun c => kubectl.isPod K (Kind c))).
Qed.

Lemma repeated_not_NoDup (pre post : list string) (n : string) :
  n ∈ pre -> ~ NoDup (pre ++ n :: post).
Proof.
  intros Hin Hnd. apply NoDup_app in Hnd as (_ & Hdisjoint & _).
  apply (Hdisjoint n Hin). apply list_elem_of_here.
Qed.

(** C2.  Let [matching] be the pod-kind components that carry the alias, in
    the order of the installation.  When each of them has labels and the node
    query of each succeeds, the check queries exactly these components (the
    others, non-pod ones with the alias included, are skipped) and returns a
    boolean with a nil error; the boolean is [true] if and only if the
    concatenation of the reported node names has no duplicate, and it is
    [false] whenever a name of the list occurs again later in it.
    Conversely the check returns [(true, nil)] in no other situation. *)
Theorem unique_node_iff_no_duplicate
    (k : KubeRunner) (i : Installation) (alias : string) (s : State W) :
  let v := mkKubeInstallVerify (Some i) k in
  let matching := List.filter (podWithAlias K alias) (Components i) in
  (forall nodes w',
      Forall labelled matching ->
      reportedNodes K k matching (world s) = Some (nodes, w') ->
      exists yes,
        IsCondition K v alias UniqueNodeCond s
        = (Returns (yes, None), mkState w' (calls s ++ map nodesCall matching))
        /\ (yes = true <-> NoDup nodes)
        /\ (forall pre n post, nodes = pre ++ n :: post -> n ∈ pre -> yes = false))
  /\ (forall s',
      IsCondition K v alias UniqueNodeCond s = (Returns (true, None), s') ->
      exists nodes,
        Forall labelled matching
        /\ reportedNodes K k matching (world s) = Some (nodes, world s')
        /\ NoDup nodes).
Proof.
  intros v matching. subst v matching.
  unfold IsCondition, isEachComponentOnUniqueNode, bind. simpl.
  rewrite appendIf_filter, matching_pods.
  set (filtered := List.filter (fun c => String.eqb (Alias c) alias) (Components i)).
  split.
  - intros nodes w' Hlab Hrep. exists (noDuplicate nodes ∅).
    rewrite (collectNodes_reported K (mkKubeInstallVerify (Some i) k)
               filtered [] s nodes w' Hlab Hrep).
    simpl. split; [done|].
    assert (noDuplicate nodes ∅ = true <-> NoDup nodes) as Hiff.
    { rewrite noDuplicate_NoDup. apply bool_decide_eq_true. }
    split; [done|].
    intros pre n post -> Hin.
    apply not_true_is_false. intros Hscan.
    apply Hiff in Hscan. by apply repeated_not_NoDup in Hscan.
  - intros s' Hrun.
    destruct (collectNodes K (mkKubeInstallVerify (Some i) k) filtered [] s)
      as [r s1] eqn:Hcollect.
    destruct (collectNodes_early K _ _ _ _ _ _ Hcollect) as (x & -> & Hearly).
    destruct x as [nodes | [b e]]; simpl in Hrun.
    + injection Hrun as Hscan <-.
      apply collectNodes_completes in Hcollect as (ns & Hns & Hlab & Hrep).
      simpl in Hns, Hrep. subst ns. exists nodes.
      split; [done|]. split; [done|].
      by apply noDuplicate_spec in Hscan as [? _].
    + injection Hrun as -> -> <-.
      by destruct (Hearly true None eq_refl) as [? _].
Qed.

End UniqueNode.

Lemma unique_node_iff_no_duplicate_witness :
  let on labels := Demo.comp "db" "pod" labels "db" in
  let svc := Demo.comp "db-svc" "service" "" "db" in
  let query labels := CGetPodNodes "default" labels in
  IsCondition Demo.pkg (Demo.install [on "app=db-a"; svc; on "app=db-b"])
              "db" UniqueNodeCond Demo.start
  = (Returns (true, None), mkState 2 [query "app=db-a"; query "app=db-b"])
  /\ IsCondition Demo.pkg (Demo.install [on "app=db-a"; svc; on "app=db-a"])
                 "db" UniqueNodeCond Demo.start
     = (Returns (false, None), mkState 2 [query "app=db-a"; query "app=db-a"]).
Proof.
  intros on svc query.
  destruct (unique_node_iff_no_duplicate Demo.pkg tt
              (mkInstallation "demo" "0.1" [on "app=db-a"; svc; on "app=db-b"])
              "db" Demo.start) as (Hapart & _).
  destruct (unique_node_iff_no_duplicate Demo.pkg tt
              (mkInstallation "demo" "0.1" [on "app=db-a"; svc; on "app=db-a"])
              "db" Demo.start) as (Hsame & _).
  split.
  - destruct (Hapart ["node-a"; "node-b"] 2) as (yes & Hrun & Hiff & _);
      [repeat constructor|reflexivity|].
    assert (yes = true) as ->; [|exact Hrun].
    apply Hiff. apply (bool_decide_unpack _). vm_compute. exact I.
  - destruct (Hsame ["node-a"; "node-a"] 2) as (yes & Hrun & _ & Hdup);
      [repeat constructor|reflexivity|].
    assert (yes = false) as ->; [|exact Hrun].
    apply (Hdup ["node-a"] "node-a" []); [reflexivity|apply list_elem_of_here].
Defined.

(** An alias-matching pod without labels: the check reports an error, not
    [(true, nil)], although no node name was reported at all. *)
Example unique_node_without_labels :
  IsCondition Demo.pkg (Demo.install [Demo.comp "db" "pod" "" "db"])
              "db" UniqueNodeCond Demo.start
  = (Returns (false, nodeLabelsRequired "pod"), Demo.start).
Proof. reflexivity. Qed.

(** With a nil installation the alias-keyed checks dereference nil. *)
Example nil_installation_panics :
  IsCondition Demo.pkg (mkKubeInstallVerify None tt) "db" UniqueNodeCond Demo.start
  = (Panics, Demo.start)
  /\ IsAction Demo.pkg (mkKubeInstallVerify None tt) "db" DeleteAnyPodAction Demo.start
     = (Panics, Demo.start)
  /\ IsDeployed Demo.pkg (mkKubeInstallVerify None tt) Demo.start
     = (Returns (false, nilInstallation "IsDeployed"), Demo.start).
Proof. repeat split. Qed.

(** ** The running check over an installation *)

Section RunningCheck.
Context {W KubeRunner : Type}.
Variable K : kubectl.Pkg W KubeRunner.
Variable v : KubeInstallVerify KubeRunner.

Lemma pods_cons (c : Component) (rest : list Component) :
  pods K (c :: rest) = pods K [c] ++ pods K rest.
Proof. unfold pods. simpl. by destruct (kubectl.isPod K (Kind c)). Qed.

Lemma pods_app (pre rest : list Component) :
  pods K (pre ++ rest) = pods K pre ++ pods K rest.
Proof. unfold pods. apply List.filter_app. Qed.

Lemma isPodComponentRunning_step (c : Component) (s : State W) a w1 :
  described K c = true ->
  runningAnswer K (kubectl v) c (world s) = (a, w1) ->
  isPodComponentRunning K v c s
  = (Returns a, mkState w1 (calls s ++ map runningCall (pods K [c]))).
Proof.
  unfold described, runningAnswer, isPodComponentRunning, kubectl.IsPod, pods.
  intros Hdesc Hans. apply andb_true_iff in Hdesc as [Hkind Hlabels].
  apply negb_true_iff in Hkind. rewrite Hkind. simpl.
  destruct (kubectl.isPod K (Kind c)); simpl in *.
  - apply negb_true_iff in Hlabels. rewrite Hlabels.
    unfold kubectl.ArePodsRunning, invoke. by rewrite Hans.
  - injection Hans as <- <-. unfold ret. by rewrite state_eta.
Qed.

Lemma rangeComponents_running_all (cs : list Component) :
  forall yes s obs w',
    forallb (described K) cs = true ->
    runningAnswers K (kubectl v) cs (world s) = (obs, w') ->
    Forall noError obs ->
    rangeComponents (isPodComponentRunning K v) cs yes None s
    = (Returns (List.last (map fst obs) yes, None),
       mkState w' (calls s ++ map runningCall (pods K cs))).
Proof.
  induction cs as [|c rest IH]; intros yes s obs w' Hdesc Hobs Hok.
  - simpl in *. injection Hobs as <- <-. unfold ret. by rewrite state_eta.
  - rewrite pods_cons, List.map_app. simpl in Hdesc, Hobs |- *.
    apply andb_true_iff in Hdesc as [Hc Hrest].
    destruct (runningAnswer K (kubectl v) c (world s)) as [a w1] eqn:Ha.
    destruct (runningAnswers K (kubectl v) rest w1) as [more w2] eqn:Hmore.
    injection Hobs as <- <-.
    apply Forall_cons in Hok as [Hnil Hok].
    destruct a as [b e]. unfold noError in Hnil; simpl in Hnil; subst e.
    unfold bind. rewrite (isPodComponentRunning_step c s _ _ Hc Ha).
    cbn [isNil].
    rewrite (IH b (mkState w1 (calls s ++ map runningCall (pods K [c])))
                more w2 Hrest Hmore Hok).
    rewrite <- (last_cons_default b yes). cbn [calls map fst].
    by rewrite <- app_assoc.
Qed.

Lemma rangeComponents_running_error (pre : list Component) c post :
  forall yes s obs w1 b e w2,
    forallb (described K) (pre ++ [c]) = true ->
    runningAnswers K (kubectl v) pre (world s) = (obs, w1) ->
    Forall noError obs ->
    runningAnswer K (kubectl v) c w1 = ((b, Some e), w2) ->
    rangeComponents (isPodComponentRunning K v) (pre ++ c :: post) yes None s
    = (Returns (b, Some e),
       mkState w2 (calls s ++ map runningCall (pods K (pre ++ [c])))).
Proof.
  intros yes s obs w1 b e w2 Hdesc Hobs Hok Hc.
  rewrite forallb_app in Hdesc. apply andb_true_iff in Hdesc as [Hpre Hdc].
  simpl in Hdc. rewrite andb_true_r in Hdc.
  pose proof (rangeComponents_running_all pre yes s obs w1 Hpre Hobs Hok) as Hrun.
  rewrite (rangeComponents_prefix _ pre (c :: post) yes s _ _ Hrun).
  simpl. unfold bind.
  rewrite (isPodComponentRunning_step c (mkState w1 _) (b, Some e) w2 Hdc Hc).
  cbn [isNil ret calls]. by rewrite pods_app, List.map_app, <- app_assoc.
Qed.

(** A component of a named, non-pod kind is running, and nothing is asked. *)
Lemma rangeComponents_plain (cs : list Component) :
  forall yes s,
    forallb (plainResource K) cs = true ->
    rangeComponents (isPodComponentRunning K v) cs yes None s
    = (Returns (match cs with [] => yes | _ :: _ => true end, None), s).
Proof.
  induction cs as [|c rest IH]; intros yes s Hplain; [done|].
  simpl in Hplain. apply andb_true_iff in Hplain as [Hc Hrest].
  unfold plainResource in Hc. apply andb_true_iff in Hc as [Hkind Hpod].
  apply negb_true_iff in Hkind.
  assert (isPodComponentRunning K v c s = (Returns (true, None), s)) as Hstep.
  { unfold isPodComponentRunning, kubectl.IsPod. by rewrite Hkind, Hpod. }
  cbn [rangeComponents]. unfold bind. rewrite Hstep. cbn [isNil].
  rewrite (IH true s Hrest). by destruct rest.
Qed.

End RunningCheck.

Section RunningProperties.
Context {W KubeRunner : Type}.
Variable K : kubectl.Pkg W KubeRunner.

(** X1.  [IsRunning] on an installation whose components name their kind
    and, when pod-kind, their labels.  Only the pod-kind components are
    queried, in order.  If no query fails the result is the answer for the
    last component: the cluster's answer when it is pod-kind, [true]
    otherwise.  The first failing query ends the check with its answer and
    error, and the later components are not queried. *)
Theorem IsRunning_returns_last_observed
    (k : KubeRunner) (i : Installation) (s : State W) :
  let v := mkKubeInstallVerify (Some i) k in
  (forall obs w',
      forallb (described K) (Components i) = true ->
      runningAnswers K k (Components i) (world s) = (obs, w') ->
      Forall noError obs ->
      IsRunning K v s
      = (Returns (List.last (map fst obs) false, None),
         mkState w' (calls s ++ map runningCall (pods K (Components i)))))
  /\ (forall pre c post obs w1 b e w2,
      Components i = pre ++ c :: post ->
      forallb (described K) (pre ++ [c]) = true ->
      runningAnswers K k pre (world s) = (obs, w1) ->
      Forall noError obs ->
      runningAnswer K k c w1 = ((b, Some e), w2) ->
      IsRunning K v s
      = (Returns (b, Some e),
         mkState w2 (calls s ++ map runningCall (pods K (pre ++ [c]))))).
Proof.
  intros v. split.
  - intros obs w' Hdesc Hobs Hok. unfold IsRunning. simpl.
    by apply (rangeComponents_running_all K v).
  - intros pre c post obs w1 b e w2 Hcs Hdesc Hobs Hok Hc.
    unfold IsRunning. simpl. rewrite Hcs.
    by apply (rangeComponents_running_error K v) with (obs := obs) (w1 := w1).
Qed.

(** X2.  An installation that is not empty and has only components of a
    named, non-pod kind (services, config maps, ...) is reported running
    without any call to the cluster. *)
Theorem plain_resources_always_running
    (k : KubeRunner) (i : Installation) (s : State W) :
  Components i <> [] ->
  forallb (plainResource K) (Components i) = true ->
  IsRunning K (mkKubeInstallVerify (Some i) k) s = (Returns (true, None), s).
Proof.
  intros Hne Hplain. unfold IsRunning. simpl.
  rewrite (rangeComponents_plain K _ _ false s Hplain).
  by destruct (Components i).
Qed.

End RunningProperties.

Lemma IsRunning_returns_last_observed_witness :
  let svc := Demo.comp "db-svc" "service" "" "db" in
  let db := Demo.comp "db" "pod" "app=db" "db" in
  let pending := Demo.comp "web" "deployment" "app=pending" "web" in
  let down := Demo.comp "cache" "pod" "app=down" "cache" in
  IsRunning Flaky.pkg (Demo.install [db; pending; svc]) Demo.start
  = (Returns (true, None), mkState 2 [runningCall db; runningCall pending])
  /\ IsRunning Flaky.pkg (Demo.install [svc; db; pending]) Demo.start
     = (Returns (false, None), mkState 2 [runningCall db; runningCall pending])
  /\ IsRunning Flaky.pkg (Demo.install [db; svc; down; pending]) Demo.start
     = (Returns (false, Some "timeout"), mkState 2 [runningCall db; runningCall down]).
Proof.
  intros svc db pending down.
  destruct (IsRunning_returns_last_observed Flaky.pkg tt
              (mkInstallation "demo" "0.1" [db; pending; svc]) Demo.start)
    as (Hfirst & _).
  destruct (IsRunning_returns_last_observed Flaky.pkg tt
              (mkInstallation "demo" "0.1" [svc; db; pending]) Demo.start)
    as (Hsecond & _).
  destruct (IsRunning_returns_last_observed Flaky.pkg tt
              (mkInstallation "demo" "0.1" [db; svc; down; pending]) Demo.start)
    as (_ & Hstop).
  split; [|split].
  - apply (Hfirst [(true, None); (false, None); (true, None)] 2);
      [reflexivity|reflexivity|repeat constructor].
  - apply (Hsecond [(true, None); (true, None); (false, None)] 2);
      [reflexivity|reflexivity|repeat constructor].
  - apply (Hstop [db; svc] down [pending] [(true, None); (true, None)] 1 false "timeout" 2);
      [reflexivity|reflexivity|reflexivity|repeat constructor|reflexivity].
Defined.

Lemma plain_resources_always_running_witness :
  IsRunning Flaky.pkg
            (Demo.install [Demo.comp "db-svc" "service" "" "db";
                           Demo.comp "db-config" "configmap" "" "db"])
            Demo.start
  = (Returns (true, None), Demo.start).
Proof.
  apply (plain_resources_always_running Flaky.pkg tt
           (mkInstallation "demo" "0.1"
              [Demo.comp "db-svc" "service" "" "db";
               Demo.comp "db-config" "configmap" "" "db"]) Demo.start);
    [discriminate|reflexivity].
Defined.

(** ** Nil descriptors and panics *)

Section Panics.
Context {W KubeRunner : Type}.
Variable K : kubectl.Pkg W KubeRunner.

Ltac returned :=
  split; [intros Hpanic; discriminate Hpanic | intros [Hnil _]; discriminate Hnil].

Lemma rangeComponents_returns (check : Component -> M W (bool * error)) :
  (forall c s, exists r s', check c s = (Returns r, s')) ->
  forall cs yes err s, exists r s', rangeComponents check cs yes err s = (Returns r, s').
Proof.
  intros Htotal cs. induction cs as [|c rest IH]; intros yes err s; simpl.
  - by eexists _, _.
  - unfold bind. destruct (Htotal c s) as ([b [e|]] & s' & ->); simpl.
    + by eexists _, _.
    + apply IH.
Qed.

Lemma isComponentDeployed_returns (v : KubeInstallVerify KubeRunner)
    (c : Component) (s : State W) :
  exists r s', isComponentDeployed K v c s = (Returns r, s').
Proof.
  unfold isComponentDeployed, kubectl.IsResourceDeployed, invoke.
  destruct (kubectl.isResourceDeployed _ _ _ _ _ _ _). by eexists _, _.
Qed.

Lemma IsCondition_panics (v : KubeInstallVerify KubeRunner)
    (alias : string) (condition : Condition) (s : State W) :
  (IsCondition K v alias condition s).1 = Panics
  <-> installation v = None /\ condition = UniqueNodeCond.
Proof.
  unfold IsCondition. destruct (String.eqb condition UniqueNodeCond) eqn:Hcond.
  - apply String.eqb_eq in Hcond. subst condition.
    unfold isEachComponentOnUniqueNode. destruct (installation v) as [i|]; [|done].
    unfold bind.
    destruct (collectNodes K v _ [] s) as [r s1] eqn:Hcollect.
    destruct (collectNodes_early K _ _ _ _ _ _ Hcollect) as (x & -> & _).
    destruct x; returned.
  - apply String.eqb_neq in Hcond. split; [intros Hpanic; discriminate Hpanic|].
    by intros [_ ?].
Qed.

Lemma alias_action_returns (k : KubeRunner) (i : Installation)
    (alias : string) (s : State W) :
  (exists r s', isDeleteAnyRunningPod K (mkKubeInstallVerify (Some i) k) alias s
                = (Returns r, s'))
  /\ (exists r s', isDeleteOldestRunningPod K (mkKubeInstallVerify (Some i) k) alias s
                   = (Returns r, s')).
Proof.
  unfold isDeleteAnyRunningPod, isDeleteOldestRunningPod, bind.
  rewrite getMatchingPodComponent_filter.
  destruct (List.filter (podWithAlias K alias) (Components i)) as [|c [|c' l]];
    simpl; try (split; by eexists _, _).
  destruct (blank (Labels c)); simpl; [split; by eexists _, _|].
  unfold kubectl.GetRunningPods, kubectl.GetOldestRunningPod, kubectl.DeletePod, invoke.
  simpl. split.
  - destruct (kubectl.getRunningPods K k (Namespace c) (Labels c) (world s))
      as [[[|pod0 more] [e|]] w1]; simpl; try by eexists _, _.
    destruct (kubectl.deletePod K k pod0 (Namespace c) w1) as [[e|] w2];
      simpl; by eexists _, _.
  - destruct (kubectl.getOldestRunningPod K k (Namespace c) (Labels c) (world s))
      as [[pod [e|]] w1]; simpl; [by eexists _, _|].
    destruct (String.length pod =? 0)%nat; simpl; [by eexists _, _|].
    destruct (kubectl.deletePod K k pod (Namespace c) w1) as [[e|] w2];
      simpl; by eexists _, _.
Qed.

Lemma IsAction_panics (v : KubeInstallVerify KubeRunner)
    (alias : string) (action : Action) (s : State W) :
  (IsAction K v alias action s).1 = Panics
  <-> installation v = None
      /\ (action = DeleteAnyPodAction \/ action = DeleteOldestPodAction).
Proof.
  unfold IsAction. destruct v as [[i|] k]; simpl.
  - destruct (alias_action_returns k i alias s)
      as [(r1 & s1 & Hany) (r2 & s2 & Hold)].
    destruct (String.eqb action DeleteAnyPodAction); [rewrite Hany; returned|].
    destruct (String.eqb action DeleteOldestPodAction); [rewrite Hold; returned|].
    returned.
  - destruct (String.eqb action DeleteAnyPodAction) eqn:Hany.
    { apply String.eqb_eq in Hany. split; [|done]. intros _. split; [done|by left]. }
    destruct (String.eqb action DeleteOldestPodAction) eqn:Hold.
    { apply String.eqb_eq in Hold. split; [|done]. intros _. split; [done|by right]. }
    apply String.eqb_neq in Hany, Hold.
    split; [intros Hpanic; discriminate Hpanic|].
    by intros [_ [?|?]].
Qed.


End Panics.


(** ** Loading a descriptor and building the verifier *)

Section Construction.
Context {W KubeRunner : Type}.
Variable ReadFile : string -> W -> (string * error) * W.
Variable yaml_Unmarshal : string -> Installation -> Installation * error.

Lemma nonempty_length (file : string) :
  file <> "" -> (String.length file =? 0)%nat = false.
Proof.
  intros Hfile. destruct (String.length file =? 0)%nat eqn:Hz; [|done].
  by apply length_zero_empty in Hz.
Qed.

(** X4.  With a non-empty path the file is read once.  A read error is
    returned with a nil installation and nothing is parsed.  A parse error is
    returned by [load] together with the non-nil installation it was parsing
    into, and [NewKubeInstallVerify] then returns a nil verifier.  When both
    succeed the verifier holds the parsed installation and the runner. *)
Theorem NewKubeInstallVerify_outcomes
    (runner : KubeRunner) (file : VerifyFile) (s : State W) :
  file <> "" ->
  let s1 w1 := mkState w1 (calls s ++ [CReadFile file]) in
  (forall d e w1,
      ReadFile file (world s) = ((d, Some e), w1) ->
      load ReadFile yaml_Unmarshal file s = (Returns (None, Some e), s1 w1)
      /\ NewKubeInstallVerify ReadFile yaml_Unmarshal runner file s
         = (Returns (None, Some e), s1 w1))
  /\ (forall d w1 i e,
      ReadFile file (world s) = ((d, None), w1) ->
      yaml_Unmarshal d zeroInstallation = (i, Some e) ->
      load ReadFile yaml_Unmarshal file s = (Returns (Some i, Some e), s1 w1)
      /\ NewKubeInstallVerify ReadFile yaml_Unmarshal runner file s
         = (Returns (None, Some e), s1 w1))
  /\ (forall d w1 i,
      ReadFile file (world s) = ((d, None), w1) ->
      yaml_Unmarshal d zeroInstallation = (i, None) ->
      load ReadFile yaml_Unmarshal file s = (Returns (Some i, None), s1 w1)
      /\ NewKubeInstallVerify ReadFile yaml_Unmarshal runner file s
         = (Returns (Some (mkKubeInstallVerify (Some i) runner), None), s1 w1)).
Proof.
  intros Hfile s1. subst s1. apply nonempty_length in Hfile.
  unfold NewKubeInstallVerify, load, bind, invoke, unmarshal. rewrite Hfile.
  repeat split; intros; simpl;
    repeat match goal with H : _ = (_, _) |- _ => rewrite H; clear H end; done.
Qed.

Lemma NewKubeInstallVerify_cases (runner : KubeRunner) (file : VerifyFile) (s : State W) :
  (exists e s1,
      NewKubeInstallVerify ReadFile yaml_Unmarshal runner file s
      = (Returns (None, Some e), s1))
  \/ (exists i s1,
      NewKubeInstallVerify ReadFile yaml_Unmarshal runner file s
      = (Returns (Some (mkKubeInstallVerify (Some i) runner), None), s1)).
Proof.
  unfold NewKubeInstallVerify, load, bind, invoke, unmarshal.
  destruct (String.length file =? 0)%nat; simpl; [left; by eexists _, _|].
  destruct (ReadFile file (world s)) as [[d [e|]] w1]; simpl; [left; by eexists _, _|].
  destruct (yaml_Unmarshal d zeroInstallation) as [i [e|]]; simpl;
    [left|right]; by eexists _, _.
Qed.

Variable K : kubectl.Pkg W KubeRunner.

(** X5.  [NewKubeInstallVerify] always returns, and exactly one of its two
    results is nil.  A verifier it returns holds the runner and a non-nil
    installation, so that none of its checks can panic afterwards. *)
Theorem constructed_verifier_never_panics
    (runner : KubeRunner) (file : VerifyFile) (s : State W) :
  exists r e s1,
    NewKubeInstallVerify ReadFile yaml_Unmarshal runner file s = (Returns (r, e), s1)
    /\ (r = None <-> e <> None)
    /\ (forall v, r = Some v ->
          kubectl v = runner
          /\ installation v <> None
          /\ forall alias name s2,
               (IsCondition K v alias name s2).1 <> Panics
               /\ (IsAction K v alias name s2).1 <> Panics
               /\ (IsDeployed K v s2).1 <> Panics
               /\ (IsRunning K v s2).1 <> Panics).
Proof.
  destruct (NewKubeInstallVerify_cases runner file s)
    as [(e & s1 & Hnew) | (i & s1 & Hnew)];
    rewrite Hnew; eexists _, _, _; (split; [reflexivity|]).
  - split; [done|]. intros v Hv. discriminate Hv.
  - split; [split; intros H; [discriminate H | by elim H]|].
    intros v [= <-]. simpl. split; [done|]. split; [done|].
    intros alias name s2.
    split; [|split; [|split]].
    + intros Hpanic. by apply IsCondition_panics in Hpanic as [? _].
    + intros Hpanic. by apply IsAction_panics in Hpanic as [? _].
    + unfold IsDeployed. simpl.
      set (v := mkKubeInstallVerify (Some i) runner).
      by destruct (rangeComponents_returns (isComponentDeployed K v)
                     (isComponentDeployed_returns K v) (Components i) false None s2)
        as (r & s' & ->).
    + unfold IsRunning. simpl.
      set (v := mkKubeInstallVerify (Some i) runner).
      by destruct (rangeComponents_returns (isPodComponentRunning K v)
                     (isPodComponentRunning_returns K v) (Components i) false None s2)
        as (r & s' & ->).
Qed.

End Construction.

Lemma NewKubeInstallVerify_outcomes_witness :
  NewKubeInstallVerify Demo.readFile Demo.parse tt "missing.yaml" Demo.start
  = (Returns (None, Some "no such file"), mkState 1 [CReadFile "missing.yaml"])
  /\ NewKubeInstallVerify Demo.readFile Demo.parse tt "install.yaml" Demo.start
     = (Returns (Some (mkKubeInstallVerify (Some (mkInstallation "demo" "" [])) tt), None),
        mkState 1 [CReadFile "install.yaml"]).
Proof.
  destruct (NewKubeInstallVerify_outcomes Demo.readFile Demo.parse tt
              "missing.yaml" Demo.start) as (Hread & _); [discriminate|].
  destruct (NewKubeInstallVerify_outcomes Demo.readFile Demo.parse tt
              "install.yaml" Demo.start) as (_ & _ & Hok); [discriminate|].
  split.
  - apply (Hread "" "no such file" 1). reflexivity.
  - apply (Hok "verifyID: demo" 1 (mkInstallation "demo" "" [])); reflexivity.
Defined.

Lemma constructed_verifier_never_panics_witness :
  exists r e s1,
    NewKubeInstallVerify Demo.readFile Demo.parse tt "install.yaml" Demo.start
    = (Returns (r, e), s1)
    /\ (r = None <-> e <> None)
    /\ (forall v, r = Some v ->
          kubectl v = tt
          /\ installation v <> None
          /\ forall alias name s2,
               (IsCondition Demo.pkg v alias name s2).1 <> Panics
               /\ (IsAction Demo.pkg v alias name s2).1 <> Panics
               /\ (IsDeployed Demo.pkg v s2).1 <> Panics
               /\ (IsRunning Demo.pkg v s2).1 <> Panics).
Proof.
  exact (constructed_verifier_never_panics Demo.readFile Demo.parse Demo.pkg tt
           "install.yaml" Demo.start).
Defined.

(** ** The two pod deletions *)

Section Deletion.
Context {W KubeRunner : Type}.
Variable K : kubectl.Pkg W KubeRunner.

(** X6.  The delete-any-pod action, for an alias resolved to one pod-kind
    component with labels.  An empty list of running pods gives the
    not-found error and nothing is deleted.  Otherwise the first pod of the
    list, and no other, is deleted, in the namespace of the component; the
    result is [(true, nil)] when the delete succeeds.  An error of the list
    query or of the delete is returned as it is, with [false]. *)
Theorem delete_any_pod_outcomes
    (k : KubeRunner) (i : Installation) (alias : string) (c : Component) (s : State W) :
  List.filter (podWithAlias K alias) (Components i) = [c] ->
  blank (Labels c) = false ->
  let v := mkKubeInstallVerify (Some i) k in
  let running := kubectl.getRunningPods K k (Namespace c) (Labels c) (world s) in
  let fetch := runningPodsCall c in
  (forall w1, running = (([], None), w1) ->
     IsAction K v alias DeleteAnyPodAction s
     = (Returns (false, runningPodsNotFound alias), mkState w1 (calls s ++ [fetch])))
  /\ (forall pod0 more w1 w2,
     running = ((pod0 :: more, None), w1) ->
     kubectl.deletePod K k pod0 (Namespace c) w1 = (None, w2) ->
     IsAction K v alias DeleteAnyPodAction s
     = (Returns (true, None),
        mkState w2 (calls s ++ [fetch; CDeletePod pod0 (Namespace c)])))
  /\ (forall pods e w1,
     running = ((pods, Some e), w1) ->
     IsAction K v alias DeleteAnyPodAction s
     = (Returns (false, Some e), mkState w1 (calls s ++ [fetch])))
  /\ (forall pod0 more e w1 w2,
     running = ((pod0 :: more, None), w1) ->
     kubectl.deletePod K k pod0 (Namespace c) w1 = (Some e, w2) ->
     IsAction K v alias DeleteAnyPodAction s
     = (Returns (false, Some e),
        mkState w2 (calls s ++ [fetch; CDeletePod pod0 (Namespace c)]))).
Proof.
  intros Hone Hlabels v running fetch. subst v running fetch.
  unfold IsAction, isDeleteAnyRunningPod, bind. simpl.
  rewrite getMatchingPodComponent_filter, Hone. simpl. rewrite Hlabels.
  unfold kubectl.GetRunningPods, kubectl.DeletePod, invoke, runningPodsCall. simpl.
  repeat split.
  - by intros w1 ->.
  - intros pod0 more w1 w2 -> Hdel. simpl. rewrite Hdel. simpl.
    by rewrite <- app_assoc.
  - by intros pods e w1 ->.
  - intros pod0 more e w1 w2 -> Hdel. simpl. rewrite Hdel. simpl.
    by rewrite <- app_assoc.
Qed.

Ltac logged :=
  first [ exists []; split; [by rewrite app_nil_r|]
        | eexists [_]; split; [reflexivity|]
        | eexists [_; _]; split; [by rewrite <- app_assoc|] ].

Ltac verdict :=
  simpl; split; [lia|];
  intros yes e Hres;
  first [ discriminate Hres
        | injection Hres as <- <-;
          split; [split; intros Heq; first [done | discriminate Heq]|];
          intros Hyes; first [discriminate Hyes | by eexists _, _, _] ].

(** X7.  Whatever the installation, the alias and the action name,
    [IsAction] issues at most one delete.  It never returns [false] with a
    nil error nor [true] with an error, and when it returns [true] it has
    made exactly two calls: one query and then the delete of one pod. *)
Theorem IsAction_deletes_at_most_one_pod
    (v : KubeInstallVerify KubeRunner) (alias : string) (action : Action) (s : State W) :
  exists new,
    calls (IsAction K v alias action s).2 = calls s ++ new
    /\ length (List.filter isDelete new) <= 1
    /\ forall yes e,
        (IsAction K v alias action s).1 = Returns (yes, e) ->
        (yes = true <-> e = None)
        /\ (yes = true ->
            exists fetch pod namespace,
              new = [fetch; CDeletePod pod namespace] /\ isDelete fetch = false).
Proof.
  unfold IsAction. destruct v as [[i|] k].
  2:{ exists []. rewrite app_nil_r.
      destruct (String.eqb action DeleteAnyPodAction); [split; [done|verdict]|].
      destruct (String.eqb action DeleteOldestPodAction); split; try done; verdict. }
  destruct (String.eqb action DeleteAnyPodAction).
  { unfold isDeleteAnyRunningPod, bind.
    rewrite getMatchingPodComponent_filter.
    destruct (List.filter (podWithAlias K alias) (Components i)) as [|c [|c' l]];
      simpl; try (logged; verdict).
    destruct (blank (Labels c)); simpl; [logged; verdict|].
    unfold kubectl.GetRunningPods, kubectl.DeletePod, invoke. simpl.
    destruct (kubectl.getRunningPods K k (Namespace c) (Labels c) (world s))
      as [[[|pod0 more] [e0|]] w1]; simpl; try (logged; verdict).
    destruct (kubectl.deletePod K k pod0 (Namespace c) w1) as [[e1|] w2];
      simpl; logged; verdict. }
  destruct (String.eqb action DeleteOldestPodAction); [|logged; verdict].
  unfold isDeleteOldestRunningPod, bind.
  rewrite getMatchingPodComponent_filter.
  destruct (List.filter (podWithAlias K alias) (Components i)) as [|c [|c' l]];
    simpl; try (logged; verdict).
  destruct (blank (Labels c)); simpl; [logged; verdict|].
  unfold kubectl.GetOldestRunningPod, kubectl.DeletePod, invoke. simpl.
  destruct (kubectl.getOldestRunningPod K k (Namespace c) (Labels c) (world s))
    as [[pod [e0|]] w1]; simpl; [logged; verdict|].
  destruct (String.length pod =? 0)%nat; simpl; [logged; verdict|].
  destruct (kubectl.deletePod K k pod (Namespace c) w1) as [[e1|] w2];
    simpl; logged; verdict.
Qed.

End Deletion.

Lemma delete_any_pod_outcomes_witness :
  let v labels := Demo.install [Demo.comp "db" "pod" labels "db";
                                Demo.comp "db-svc" "service" "" "db"] in
  let fetch labels := CGetRunningPods "default" labels in
  IsAction Flaky.pkg (v "app=none") "db" DeleteAnyPodAction Demo.start
  = (Returns (false, runningPodsNotFound "db"), mkState 1 [fetch "app=none"])
  /\ IsAction Flaky.pkg (v "app=db") "db" DeleteAnyPodAction Demo.start
     = (Returns (true, None), mkState 2 [fetch "app=db"; CDeletePod "db-0" "default"])
  /\ IsAction Flaky.pkg (v "app=down") "db" DeleteAnyPodAction Demo.start
     = (Returns (false, Some "timeout"), mkState 1 [fetch "app=down"])
  /\ IsAction Flaky.pkg (v "app=stuck") "db" DeleteAnyPodAction Demo.start
     = (Returns (false, Some "forbidden"),
        mkState 2 [fetch "app=stuck"; CDeletePod "stuck-0" "default"]).
Proof.
  intros v fetch.
  pose (inst labels := mkInstallation "demo" "0.1"
                         [Demo.comp "db" "pod" labels "db";
                          Demo.comp "db-svc" "service" "" "db"]).
  destruct (delete_any_pod_outcomes Flaky.pkg tt (inst "app=none") "db"
              (Demo.comp "db" "pod" "app=none" "db") Demo.start)
    as (Hnone & _); [reflexivity|reflexivity|].
  destruct (delete_any_pod_outcomes Flaky.pkg tt (inst "app=db") "db"
              (Demo.comp "db" "pod" "app=db" "db") Demo.start)
    as (_ & Hdeleted & _); [reflexivity|reflexivity|].
  destruct (delete_any_pod_outcomes Flaky.pkg tt (inst "app=down") "db"
              (Demo.comp "db" "pod" "app=down" "db") Demo.start)
    as (_ & _ & Hfetch & _); [reflexivity|reflexivity|].
  destruct (delete_any_pod_outcomes Flaky.pkg tt (inst "app=stuck") "db"
              (Demo.comp "db" "pod" "app=stuck" "db") Demo.start)
    as (_ & _ & _ & Hdelete); [reflexivity|reflexivity|].
  split; [apply (Hnone 1); reflexivity|].
  split; [apply (Hdeleted "db-0" ["db-1"] 1 2); reflexivity|].
  split; [apply (Hfetch [] "timeout" 1); reflexivity|].
  apply (Hdelete "stuck-0" ["db-1"] "forbidden" 1 2); reflexivity.
Defined.

Lemma IsAction_deletes_at_most_one_pod_witness :
  exists new,
    calls (IsAction Flaky.pkg (Demo.install [Demo.comp "db" "pod" "app=db" "db"])
                    "db" DeleteAnyPodAction Demo.start).2 = calls Demo.start ++ new
    /\ length (List.filter isDelete new) <= 1
    /\ forall yes e,
        (IsAction Flaky.pkg (Demo.install [Demo.comp "db" "pod" "app=db" "db"])
                  "db" DeleteAnyPodAction Demo.start).1 = Returns (yes, e) ->
        (yes = true <-> e = None)
        /\ (yes = true ->
            exists fetch pod namespace,
              new = [fetch; CDeletePod pod namespace] /\ isDelete fetch = false).
Proof.
  exact (IsAction_deletes_at_most_one_pod Flaky.pkg
           (Demo.install [Demo.comp "db" "pod" "app=db" "db"])
           "db" DeleteAnyPodAction Demo.start).
Defined.

(** ** What the checks ask the cluster *)

Section Footprint.
Context {W KubeRunner : Type}.
Variable K : kubectl.Pkg W KubeRunner.
Variable v : KubeInstallVerify KubeRunner.

Lemma rangeComponents_deployed_log (cs : list Component) :
  forall yes s,
  exists n,
    n <= length cs
    /\ calls (rangeComponents (isComponentDeployed K v) cs yes None s).2
       = calls s ++ map deployedCall (take n cs)
    /\ forall y, (rangeComponents (isComponentDeployed K v) cs yes None s).1
                 = Returns (y, None) -> n = length cs.
Proof.
  induction cs as [|c rest IH]; intros yes s.
  - exists 0. simpl. by rewrite app_nil_r.
  - simpl. unfold bind.
    destruct (deployedAnswer K (kubectl v) c (world s)) as [[b e] w1] eqn:Ha.
    rewrite (isComponentDeployed_step K v c s _ _ Ha).
    destruct e as [e|]; simpl.
    + exists 1. split; [lia|]. split; [done|]. intros y Hy. discriminate Hy.
    + destruct (IH b (mkState w1 (calls s ++ [deployedCall c]))) as (n & Hn & Hlog & Hall).
      exists (S n). split; [lia|]. split.
      * rewrite Hlog. simpl. by rewrite <- app_assoc.
      * intros y Hy. by rewrite (Hall y Hy).
Qed.

Lemma isPodComponentRunning_cases (c : Component) (s : State W) :
  (kubectl.isPod K (Kind c) = false
   /\ exists e, isPodComponentRunning K v c s = (Returns (true, e), s))
  \/ (kubectl.isPod K (Kind c) = true
      /\ exists e, isPodComponentRunning K v c s = (Returns (false, Some e), s))
  \/ (kubectl.isPod K (Kind c) = true /\ labelled c
      /\ exists a w1, isPodComponentRunning K v c s
                      = (Returns a, mkState w1 (calls s ++ [runningCall c]))).
Proof.
  unfold isPodComponentRunning, kubectl.IsPod, labelled.
  destruct (kubectl.isPod K (Kind c)); cbn [negb].
  - right. destruct (blank (Labels c)); [left; split; [done|by eexists]|].
    right. split; [done|]. split; [done|].
    unfold kubectl.ArePodsRunning, invoke.
    destruct (kubectl.arePodsRunning _ _ _ _ _). by eexists _, _.
  - left. split; [done|]. by eexists.
Qed.

Lemma rangeComponents_running_log (cs : list Component) :
  forall yes s,
  exists n,
    n <= length cs
    /\ calls (rangeComponents (isPodComponentRunning K v) cs yes None s).2
       = calls s ++ map runningCall (pods K (take n cs))
    /\ Forall labelled (pods K (take n cs))
    /\ forall y, (rangeComponents (isPodComponentRunning K v) cs yes None s).1
                 = Returns (y, None) -> n = length cs.
Proof.
  induction cs as [|c rest IH]; intros yes s.
  - exists 0. simpl. rewrite app_nil_r. repeat split; [lia|constructor].
  - cbn [rangeComponents]. unfold bind.
    destruct (isPodComponentRunning_cases c s)
      as [(Hpod & e & ->) | [(Hpod & e & ->) | (Hpod & Hlab & [b e] & w1 & ->)]].
    + destruct e as [e|]; cbn [isNil].
      { exists 0. cbn. rewrite app_nil_r. repeat split; [lia|constructor|].
        intros y Hy. discriminate Hy. }
      destruct (IH true s) as (n & Hn & Hlog & Hlabs & Hall).
      exists (S n). rewrite firstn_cons, pods_cons. unfold pods at 1 3. cbn.
      rewrite Hpod. cbn. split; [lia|]. split; [done|]. split; [done|].
      intros y Hy. by rewrite (Hall y Hy).
    + exists 0. cbn. rewrite app_nil_r. repeat split; [lia|constructor|].
      intros y Hy. discriminate Hy.
    + destruct e as [e|]; cbn [isNil].
      { exists 1. cbn. unfold pods. cbn. rewrite Hpod. cbn.
        repeat split; [lia|by repeat constructor|]. intros y Hy. discriminate Hy. }
      destruct (IH b (mkState w1 (calls s ++ [runningCall c])))
        as (n & Hn & Hlog & Hlabs & Hall).
      exists (S n). rewrite firstn_cons, pods_cons. unfold pods at 1 3. cbn.
      rewrite Hpod. cbn. split; [lia|].
      split; [rewrite Hlog; cbn; by rewrite <- app_assoc|].
      split; [by constructor|]. intros y Hy. by rewrite (Hall y Hy).
Qed.

Lemma collectNodes_log (fs : list Component) :
  forall acc s,
  exists n,
    n <= length (pods K fs)
    /\ calls (collectNodes K v fs acc s).2
       = calls s ++ map nodesCall (take n (pods K fs))
    /\ Forall labelled (take n (pods K fs))
    /\ forall nodes, (collectNodes K v fs acc s).1 = Returns (inl nodes) ->
                     n = length (pods K fs).
Proof.
  induction fs as [|f rest IH]; intros acc s.
  - exists 0. simpl. rewrite app_nil_r. repeat split; [lia|constructor].
  - cbn [collectNodes]. unfold kubectl.IsPod. rewrite pods_cons. unfold pods at 1 3 5 7.
    cbn [List.filter]. destruct (kubectl.isPod K (Kind f)) eqn:Hpod; cbn [negb app].
    2:{ apply IH. }
    destruct (blank (Labels f)) eqn:Hlabels.
    { exists 0. cbn. rewrite app_nil_r. repeat split; [lia|constructor|].
      intros nodes Hn. discriminate Hn. }
    unfold bind, kubectl.GetPodNodes, invoke.
    destruct (kubectl.getPodNodes K (kubectl v) (Namespace f) (Labels f) (world s))
      as [[n0 [e|]] w1]; cbn [isNil negb].
    { exists 1. cbn. rewrite take_0. repeat split; [lia|by repeat constructor|].
      intros nodes Hn. discriminate Hn. }
    destruct (IH (acc ++ n0) (mkState w1 (calls s ++ [CGetPodNodes (Namespace f) (Labels f)])))
      as (n & Hn & Hlog & Hlab & Hall).
    exists (S n). cbn. split; [lia|].
    split; [rewrite Hlog; cbn; by rewrite <- app_assoc|].
    split; [by constructor|]. intros nodes Hnodes. by rewrite (Hall nodes Hnodes).
Qed.

End Footprint.

Section FootprintProperties.
Context {W KubeRunner : Type}.
Variable K : kubectl.Pkg W KubeRunner.

(** X8.  Whatever the cluster answers, the calls of [IsDeployed] are the
    existence queries of the first [n] components, in order and once each,
    and nothing else.  A nil error means that all components were queried. *)
Theorem IsDeployed_queries_a_prefix (k : KubeRunner) (i : Installation) (s : State W) :
  let v := mkKubeInstallVerify (Some i) k in
  exists n,
    n <= length (Components i)
    /\ calls (IsDeployed K v s).2
       = calls s ++ map deployedCall (take n (Components i))
    /\ forall yes, (IsDeployed K v s).1 = Returns (yes, None) ->
                   n = length (Components i).
Proof.
  intros v. unfold IsDeployed. simpl.
  apply (rangeComponents_deployed_log K v).
Qed.

(** X9.  Whatever the cluster answers, the calls of [IsRunning] are the
    running queries of the pod-kind components among the first [n]
    components, in order, and nothing else.  Every component queried has
    labels: the cluster is never asked with an empty selector.  A nil error
    means that all components were examined. *)
Theorem IsRunning_queries_labelled_pods (k : KubeRunner) (i : Installation) (s : State W) :
  let v := mkKubeInstallVerify (Some i) k in
  exists n,
    n <= length (Components i)
    /\ calls (IsRunning K v s).2
       = calls s ++ map runningCall (pods K (take n (Components i)))
    /\ Forall labelled (pods K (take n (Components i)))
    /\ forall yes, (IsRunning K v s).1 = Returns (yes, None) ->
                   n = length (Components i).
Proof.
  intros v. unfold IsRunning. simpl.
  apply (rangeComponents_running_log K v).
Qed.

(** X10.  Whatever the cluster answers, the calls of the unique-node check
    are the node queries of the first [n] pod-kind components with the
    alias, in order, each with labels, and nothing else.  A nil error means
    that all of them were queried. *)
Theorem unique_node_queries_labelled_pods
    (k : KubeRunner) (i : Installation) (alias : string) (s : State W) :
  let v := mkKubeInstallVerify (Some i) k in
  let matching := List.filter (podWithAlias K alias) (Components i) in
  exists n,
    n <= length matching
    /\ calls (IsCondition K v alias UniqueNodeCond s).2
       = calls s ++ map nodesCall (take n matching)
    /\ Forall labelled (take n matching)
    /\ forall yes, (IsCondition K v alias UniqueNodeCond s).1 = Returns (yes, None) ->
                   n = length matching.
Proof.
  intros v matching. subst matching. rewrite matching_pods.
  unfold IsCondition, isEachComponentOnUniqueNode, bind. simpl.
  rewrite appendIf_filter.
  set (filtered := List.filter (fun c => String.eqb (Alias c) alias) (Components i)).
  destruct (collectNodes_log K v filtered [] s) as (n & Hn & Hlog & Hlab & Hall).
  exists n.
  destruct (collectNodes K v filtered [] s) as [r s1] eqn:Hcollect.
  destruct (collectNodes_early K _ _ _ _ _ _ Hcollect) as (x & -> & Hearly).
  simpl in Hlog, Hall.
  destruct x as [nodes | [b e]]; simpl.
  - repeat split; try done. intros _ _. by apply (Hall nodes).
  - repeat split; try done. intros yes [= -> ->].
    by destruct (Hearly yes None eq_refl) as [_ ?].
Qed.

End FootprintProperties.

Lemma IsDeployed_queries_a_prefix_witness :
  let cs := [Demo.comp "web" "service" "" "svc"; Demo.comp "broken" "service" "" "svc";
             Demo.comp "ghost" "service" "" "svc"] in
  exists n,
    n <= 3
    /\ calls (IsDeployed Demo.pkg (Demo.install cs) Demo.start).2
       = calls Demo.start ++ map deployedCall (take n cs)
    /\ forall yes, (IsDeployed Demo.pkg (Demo.install cs) Demo.start).1
                   = Returns (yes, None) -> n = 3.
Proof.
  intros cs.
  exact (IsDeployed_queries_a_prefix Demo.pkg tt (mkInstallation "demo" "0.1" cs) Demo.start).
Defined.

Lemma IsRunning_queries_labelled_pods_witness :
  let cs := [Demo.comp "db-svc" "service" "" "db"; Demo.comp "db" "pod" "app=db" "db";
             Demo.comp "bare" "pod" "" "bare"] in
  exists n,
    n <= 3
    /\ calls (IsRunning Flaky.pkg (Demo.install cs) Demo.start).2
       = calls Demo.start ++ map runningCall (pods Flaky.pkg (take n cs))
    /\ Forall labelled (pods Flaky.pkg (take n cs))
    /\ forall yes, (IsRunning Flaky.pkg (Demo.install cs) Demo.start).1
                   = Returns (yes, None) -> n = 3.
Proof.
  intros cs.
  exact (IsRunning_queries_labelled_pods Flaky.pkg tt
           (mkInstallation "demo" "0.1" cs) Demo.start).
Defined.

Lemma unique_node_queries_labelled_pods_witness :
  let cs := [Demo.comp "db" "pod" "app=db-a" "db"; Demo.comp "db-svc" "service" "" "db";
             Demo.comp "db" "pod" "app=down" "db"; Demo.comp "db" "pod" "app=db-b" "db"] in
  let matching := List.filter (podWithAlias Demo.pkg "db") cs in
  exists n,
    n <= length matching
    /\ calls (IsCondition Demo.pkg (Demo.install cs) "db" UniqueNodeCond Demo.start).2
       = calls Demo.start ++ map nodesCall (take n matching)
    /\ Forall labelled (take n matching)
    /\ forall yes, (IsCondition Demo.pkg (Demo.install cs) "db" UniqueNodeCond
                                Demo.start).1 = Returns (yes, None) ->
                   n = length matching.
Proof.
  intros cs.
  exact (unique_node_queries_labelled_pods Demo.pkg tt
           (mkInstallation "demo" "0.1" cs) "db" Demo.start).
Defined.

(** ** More on the unique-node condition and on alias resolution *)

(** X11.  The verdict of the duplicate scan does not depend on the order in
    which the node names are listed: only the place where the scan stops
    does. *)
Theorem noDuplicate_order_independent
    (nodes nodes' : list string) (seen : gmap string string) :
  nodes ≡ₚ nodes' ->
  noDuplicate nodes seen = noDuplicate nodes' seen.
Proof.
  intros Hperm. apply eq_true_iff_eq. rewrite !noDuplicate_spec.
  split; intros [Hnd Hfresh]; split.
  - by rewrite <- Hperm.
  - intros n Hn. apply Hfresh. by rewrite Hperm.
  - by rewrite Hperm.
  - intros n Hn. apply Hfresh. by rewrite <- Hperm.
Qed.

Lemma noDuplicate_order_independent_witness :
  noDuplicate ["node-a"; "node-b"; "node-a"] ∅
  = noDuplicate ["node-b"; "node-a"; "node-a"] ∅.
Proof.
  apply noDuplicate_order_independent. apply perm_swap.
Defined.

Section UniqueNodeEdges.
Context {W KubeRunner : Type}.
Variable K : kubectl.Pkg W KubeRunner.
Variable v : KubeInstallVerify KubeRunner.

Lemma collectNodes_stops (c : Component) (post fs : list Component) :
  forall pre acc s ns w1,
    pods K fs = pre ++ c :: post ->
    Forall labelled pre ->
    reportedNodes K (kubectl v) pre (world s) = Some (ns, w1) ->
    (blank (Labels c) = true ->
     collectNodes K v fs acc s
     = (Returns (inr (false, nodeLabelsRequired (Kind c))),
        mkState w1 (calls s ++ map nodesCall pre)))
    /\ (forall n e w2,
        blank (Labels c) = false ->
        kubectl.getPodNodes K (kubectl v) (Namespace c) (Labels c) w1 = ((n, Some e), w2) ->
        collectNodes K v fs acc s
        = (Returns (inr (false, Some e)),
           mkState w2 (calls s ++ map nodesCall (pre ++ [c])))).
Proof.
  induction fs as [|f rest IH]; intros pre acc s ns w1 Hpods Hlab Hrep.
  - by destruct pre.
  - rewrite pods_cons in Hpods. unfold pods at 1 in Hpods. cbn [List.filter] in Hpods.
    cbn [collectNodes]. unfold kubectl.IsPod.
    destruct (kubectl.isPod K (Kind f)) eqn:Hpod; cbn [negb app] in *;
      [|by apply (IH pre acc s ns w1)].
    destruct pre as [|p pre]; cbn [app] in Hpods; injection Hpods as -> Hpods.
    + simpl in Hrep. injection Hrep as <- <-. split.
      * intros Hblank. rewrite Hblank. unfold ret. simpl. by rewrite state_eta.
      * intros n e w2 Hblank Hnodes. rewrite Hblank.
        unfold bind, kubectl.GetPodNodes, invoke. by rewrite Hnodes.
    + apply Forall_cons in Hlab as [Hp Hlab]. unfold labelled in Hp. rewrite Hp.
      simpl in Hrep. unfold bind, kubectl.GetPodNodes, invoke.
      destruct (kubectl.getPodNodes K (kubectl v) (Namespace p) (Labels p) (world s))
        as [[n0 [e0|]] w0]; [done|].
      destruct (reportedNodes K (kubectl v) pre w0) as [[more w]|] eqn:Hmore; [|done].
      injection Hrep as <- <-. cbn [isNil negb].
      destruct (IH pre (acc ++ n0)
                   (mkState w0 (calls s ++ [CGetPodNodes (Namespace p) (Labels p)]))
                   more w Hpods Hlab Hmore) as [Hstop Hfail].
      split.
      * intros Hblank. rewrite (Hstop Hblank). simpl. by rewrite <- app_assoc.
      * intros n e w2 Hblank Hnodes. rewrite (Hfail n e w2 Hblank Hnodes).
        simpl. by rewrite <- app_assoc.
Qed.

End UniqueNodeEdges.

Section UniqueNodeProperties.
Context {W KubeRunner : Type}.
Variable K : kubectl.Pkg W KubeRunner.

(** X12.  When no pod-kind component carries the alias (the alias is
    unknown, or only other kinds of component carry it) the unique-node
    condition holds: [(true, nil)], without any call to the cluster. *)
Theorem unique_node_holds_without_pods
    (k : KubeRunner) (i : Installation) (alias : string) (s : State W) :
  List.filter (podWithAlias K alias) (Components i) = [] ->
  IsCondition K (mkKubeInstallVerify (Some i) k) alias UniqueNodeCond s
  = (Returns (true, None), s).
Proof.
  intros Hnone. rewrite matching_pods in Hnone.
  unfold IsCondition, isEachComponentOnUniqueNode, bind. simpl.
  rewrite appendIf_filter.
  rewrite (collectNodes_reported K _ _ [] s [] (world s)).
  - rewrite Hnone. simpl. by rewrite state_eta.
  - rewrite Hnone. constructor.
  - by rewrite Hnone.
Qed.

(** X13.  The unique-node check collects all node names before it looks for
    duplicates.  When an alias-matching pod-kind component has no labels, or
    its node query fails, after the earlier ones were collected, the result
    is [false] with that error, whether or not the names collected so far
    already contain a duplicate; the later components are not queried. *)
Theorem unique_node_error_before_verdict
    (k : KubeRunner) (i : Installation) (alias : string) (s : State W)
    (pre post : list Component) (c : Component) (ns : list string) (w1 : W) :
  List.filter (podWithAlias K alias) (Components i) = pre ++ c :: post ->
  Forall labelled pre ->
  reportedNodes K k pre (world s) = Some (ns, w1) ->
  let v := mkKubeInstallVerify (Some i) k in
  (blank (Labels c) = true ->
   IsCondition K v alias UniqueNodeCond s
   = (Returns (false, nodeLabelsRequired (Kind c)),
      mkState w1 (calls s ++ map nodesCall pre)))
  /\ (forall n e w2,
      blank (Labels c) = false ->
      kubectl.getPodNodes K k (Namespace c) (Labels c) w1 = ((n, Some e), w2) ->
      IsCondition K v alias UniqueNodeCond s
      = (Returns (false, Some e), mkState w2 (calls s ++ map nodesCall (pre ++ [c])))).
Proof.
  intros Hmatch Hlab Hrep v. rewrite matching_pods in Hmatch.
  unfold IsCondition, isEachComponentOnUniqueNode, bind. simpl.
  rewrite appendIf_filter.
  destruct (collectNodes_stops K v c post _ pre [] s ns w1 Hmatch Hlab Hrep)
    as [Hstop Hfail].
  split.
  - intros Hblank. by rewrite (Hstop Hblank).
  - intros n e w2 Hblank Hnodes. by rewrite (Hfail n e w2 Hblank Hnodes).
Qed.

(** X14.  A component returned by [getMatchingPodComponent] without error
    is a component of the installation, carries the alias and is pod-kind;
    every pod-kind component of the installation with the alias is equal to
    it.  The lookup makes no call. *)
Theorem getMatchingPodComponent_sound
    (k : KubeRunner) (i : Installation) (alias : string) (s s' : State W) (c : Component) :
  getMatchingPodComponent K (mkKubeInstallVerify (Some i) k) alias s
  = (Returns (c, None), s') ->
  s' = s
  /\ c ∈ Components i
  /\ Alias c = alias
  /\ kubectl.isPod K (Kind c) = true
  /\ forall c', c' ∈ Components i -> Alias c' = alias ->
                kubectl.isPod K (Kind c') = true -> c' = c.
Proof.
  rewrite getMatchingPodComponent_filter.
  destruct (List.filter (podWithAlias K alias) (Components i)) as [|c0 [|c1 l]] eqn:Hf;
    intros Hget; [discriminate Hget| |discriminate Hget].
  injection Hget as -> ->.
  assert (forall x, x ∈ Components i /\ podWithAlias K alias x = true <-> x = c) as Hin.
  { intros x. split.
    - intros [Hx Hp]. apply list_elem_of_singleton. rewrite <- Hf.
      apply list_elem_of_In, List.filter_In. split; [by apply list_elem_of_In|done].
    - intros ->.
      assert (c ∈ List.filter (podWithAlias K alias) (Components i)) as Hc
          by (rewrite Hf; apply list_elem_of_here).
      apply list_elem_of_In, List.filter_In in Hc as [Hc Hp].
      split; [by apply list_elem_of_In|done]. }
  destruct (Hin c) as [_ [Hc Hp]]; [done|].
  unfold podWithAlias in Hp. apply andb_true_iff in Hp as [Ha Hpod].
  apply String.eqb_eq in Ha.
  repeat split; try done.
  intros c' Hc' Ha' Hpod'. apply Hin. split; [done|].
  unfold podWithAlias. rewrite Hpod'. rewrite andb_true_r. by apply String.eqb_eq.
Qed.

End UniqueNodeProperties.

Lemma unique_node_holds_without_pods_witness :
  IsCondition Demo.pkg
              (Demo.install [Demo.comp "db-svc" "service" "" "db";
                             Demo.comp "web" "pod" "app=db-a" "web"])
              "db" UniqueNodeCond Demo.start
  = (Returns (true, None), Demo.start).
Proof.
  apply (unique_node_holds_without_pods Demo.pkg tt
           (mkInstallation "demo" "0.1"
              [Demo.comp "db-svc" "service" "" "db";
               Demo.comp "web" "pod" "app=db-a" "web"]) "db" Demo.start).
  reflexivity.
Defined.

Lemma unique_node_error_before_verdict_witness :
  let on labels := Demo.comp "db" "pod" labels "db" in
  let query labels := CGetPodNodes "default" labels in
  IsCondition Demo.pkg (Demo.install [on "app=db-a"; on "app=db-a"; on ""; on "app=db-b"])
              "db" UniqueNodeCond Demo.start
  = (Returns (false, nodeLabelsRequired "pod"),
     mkState 2 [query "app=db-a"; query "app=db-a"])
  /\ IsCondition Demo.pkg (Demo.install [on "app=db-a"; on "app=down"; on "app=db-b"])
                 "db" UniqueNodeCond Demo.start
     = (Returns (false, Some "timeout"), mkState 2 [query "app=db-a"; query "app=down"]).
Proof.
  intros on query. split.
  - destruct (unique_node_error_before_verdict Demo.pkg tt
                (mkInstallation "demo" "0.1"
                   [on "app=db-a"; on "app=db-a"; on ""; on "app=db-b"])
                "db" Demo.start [on "app=db-a"; on "app=db-a"] [on "app=db-b"] (on "")
                ["node-a"; "node-a"] 2) as [Hstop _];
      [reflexivity|repeat constructor|reflexivity|].
    apply Hstop. reflexivity.
  - destruct (unique_node_error_before_verdict Demo.pkg tt
                (mkInstallation "demo" "0.1"
                   [on "app=db-a"; on "app=down"; on "app=db-b"])
                "db" Demo.start [on "app=db-a"] [on "app=db-b"] (on "app=down")
                ["node-a"] 1) as [_ Hfail];
      [reflexivity|repeat constructor|reflexivity|].
    apply (Hfail [] "timeout" 2); reflexivity.
Defined.

Lemma getMatchingPodComponent_sound_witness :
  let db := Demo.comp "db" "pod" "app=db-a" "db" in
  let svc := Demo.comp "db-svc" "service" "" "db" in
  db ∈ [svc; db] /\ Alias db = "db" /\ Demo.isPod (Kind db) = true.
Proof.
  intros db svc.
  destruct (getMatchingPodComponent_sound Demo.pkg tt
              (mkInstallation "demo" "0.1" [svc; db]) "db" Demo.start Demo.start db)
    as (_ & Hin & Halias & Hpod & _); [reflexivity|].
  split; [exact Hin|]. split; [exact Halias|exact Hpod].
Defined.

Section ResolutionErrors.
Context {W KubeRunner : Type}.
Variable K : kubectl.Pkg W KubeRunner.

(** X15.  Both alias-keyed actions return the error of the alias resolution
    as it is: the not-found error when no pod-kind component carries the
    alias, the not-unique error when several do.  No call is made. *)
Theorem alias_resolution_error_is_returned
    (k : KubeRunner) (i : Installation) (alias : string) (action : Action) (s : State W) :
  action = DeleteAnyPodAction \/ action = DeleteOldestPodAction ->
  let v := mkKubeInstallVerify (Some i) k in
  let matching := List.filter (podWithAlias K alias) (Components i) in
  (matching = [] -> IsAction K v alias action s = (Returns (false, notFound alias), s))
  /\ (2 <= length matching ->
      IsAction K v alias action s = (Returns (false, notUnique alias), s)).
Proof.
  intros Haction v matching. subst v matching.
  unfold IsAction, isDeleteAnyRunningPod, isDeleteOldestRunningPod, bind.
  destruct Haction as [-> | ->]; simpl; rewrite getMatchingPodComponent_filter;
    destruct (List.filter (podWithAlias K alias) (Components i)) as [|c [|c' l]];
    simpl; split; intros H; first [done | discriminate H | lia].
Qed.

End ResolutionErrors.

Lemma alias_resolution_error_is_returned_witness :
  let db := Demo.comp "db" "pod" "app=db-a" "db" in
  IsAction Demo.pkg (Demo.install [db; db]) "web" DeleteAnyPodAction Demo.start
  = (Returns (false, notFound "web"), Demo.start)
  /\ IsAction Demo.pkg (Demo.install [db; db]) "db" DeleteOldestPodAction Demo.start
     = (Returns (false, notUnique "db"), Demo.start).
Proof.
  intros db.
  destruct (alias_resolution_error_is_returned Demo.pkg tt
              (mkInstallation "demo" "0.1" [db; db]) "web" DeleteAnyPodAction Demo.start)
    as [Hnone _]; [by left|].
  destruct (alias_resolution_error_is_returned Demo.pkg tt
              (mkInstallation "demo" "0.1" [db; db]) "db" DeleteOldestPodAction Demo.start)
    as [_ Hmany]; [by right|].
  split; [apply Hnone; reflexivity | apply Hmany; simpl; lia].
Defined.
